(** * RAG question-answering service: request handlers and core services

    A shallow embedding of the Python sources under [app/]:
    [config.py], [core/document_processor.py], [core/vector_store.py],
    [core/rag_chain.py], [core/ragas_evaluator.py], [api/routes/documents.py]
    and the exception handler of [main.py].

    The service is glue code around hosted services and libraries.  Every
    call that leaves the repository (file loaders, the text splitter, the
    Qdrant client, the chat model, RAGAS, [uuid4], the clock, the temporary
    file) is a field of the record [Env]; the state of everything outside
    the process is an abstract type [World] that those calls transform.
    Functions of the repository are written in a state-and-exception monad
    over [World].  Logging calls have no effect on results and are left
    out. *)

From Stdlib Require Import ZArith String Ascii List Bool Lia.
From stdpp Require Import base strings gmap pretty.

Import ListNotations.
Local Open Scope Z_scope.
Local Open Scope string_scope.
Local Open Scope list_scope.

(* ===================================================================== *)
(** * Python runtime: exceptions, results, the handler monad             *)
(* ===================================================================== *)

(** The exception classes that the sources raise or catch by name.  All of
    them derive from [Exception].  [ValueError] stands for the class and its
    subclasses (an [except ValueError] clause catches those too);
    [OtherException] is any other subclass of [Exception]. *)
Inductive exn : Type :=
| ValueError (msg : string)
| TypeError (msg : string)
| AttributeError (msg : string)
| KeyError (msg : string)
| NameError (msg : string)
| UnexpectedResponse (msg : string)
| HTTPException (status_code : Z) (detail : string)
| OtherException (msg : string).

(** [str(e)]. *)
Definition exn_str (e : exn) : string :=
  match e with
  | ValueError m | TypeError m | AttributeError m | KeyError m | NameError m
  | UnexpectedResponse m | OtherException m => m
  | HTTPException s d => pretty s +:+ ": " +:+ d
  end.

(** [isinstance(e, ValueError)]. *)
Definition is_ValueError (e : exn) : bool :=
  match e with ValueError _ => true | _ => false end.

(** [isinstance(e, UnexpectedResponse)]. *)
Definition is_UnexpectedResponse (e : exn) : bool :=
  match e with UnexpectedResponse _ => true | _ => false end.

Inductive result (A : Type) : Type :=
| Ok (a : A)
| Raise (e : exn).
Arguments Ok {A} a.
Arguments Raise {A} e.

(** A computation runs in a world and leaves a world behind, also when it
    raises: effects performed before an exception stay performed. *)
Definition M (World A : Type) : Type := World -> result A * World.

Section Monad.
Context {World : Type}.

Definition ret {A} (a : A) : M World A := fun w => (Ok a, w).

Definition raise {A} (e : exn) : M World A := fun w => (Raise e, w).

Definition bind {A B} (m : M World A) (k : A -> M World B) : M World B :=
  fun w =>
    match m w with
    | (Ok a, w') => k a w'
    | (Raise e, w') => (Raise e, w')
    end.

(** A pure library call that may raise. *)
Definition lift {A} (r : result A) : M World A := fun w => (r, w).

(** [try: m  except Exception as e: h e]. *)
Definition try_except {A} (m : M World A) (h : exn -> M World A) : M World A :=
  fun w =>
    match m w with
    | (Ok a, w') => (Ok a, w')
    | (Raise e, w') => h e w'
    end.

(** [try: m  finally: f]: [f] runs on both exits; an exception of [f]
    replaces the outcome of [m]. *)
Definition try_finally {A} (m : M World A) (f : M World unit) : M World A :=
  fun w =>
    match m w with
    | (r, w') =>
        match f w' with
        | (Ok _, w'') => (r, w'')
        | (Raise e, w'') => (Raise e, w'')
        end
    end.

(** [await c] where [c] is the coroutine of an [async def]: the body
    runs to completion. *)
Definition await_coroutine {A} (c : M World A) : M World A := c.

(** [await f(...)] where [f] is a plain [def] that returns a list.  The
    call expression is evaluated first, with its effects and its
    exceptions; the list it returns is not awaitable and [await] raises
    [TypeError]. *)
Definition await_plain_list {A B} (call : M World (list A)) : M World B :=
  bind call (fun _ =>
    raise (TypeError "object list can't be used in 'await' expression")).

(** A list comprehension [[f(x) for x in xs]] whose element expression
    has effects, evaluated left to right. *)
Fixpoint comprehension {A B} (f : A -> M World B) (xs : list A)
  : M World (list B) :=
  match xs with
  | [] => ret []
  | x :: xs' =>
      bind (f x) (fun y =>
      bind (comprehension f xs') (fun ys => ret (y :: ys)))
  end.
End Monad.

Notation "'let!' x ':=' c 'in' k" := (bind c (fun x => k))
  (at level 10, x name, c at level 200, k at level 200).
Notation "'run!' c 'in' k" := (bind c (fun _ => k))
  (at level 10, c at level 200, k at level 200).

(** Truthiness of the values the sources test with [not], [or] and [if]. *)
Definition truthy_str (s : string) : bool := negb (String.eqb s "").
Definition truthy_opt_str (s : option string) : bool :=
  match s with Some s => truthy_str s | None => false end.
Definition truthy_list {A} (l : list A) : bool :=
  match l with [] => false | _ => true end.

(** [a or d] for [a : int | None]: [None] and [0] are falsy. *)
Definition or_int (a : option Z) (d : Z) : Z :=
  match a with
  | Some v => if Z.eqb v 0 then d else v
  | None => d
  end.

(** [a or d] for [a : str | None]. *)
Definition or_str (a : option string) (d : string) : string :=
  match a with
  | Some s => if truthy_str s then s else d
  | None => d
  end.

(* ===================================================================== *)
(** * Data model                                                         *)
(* ===================================================================== *)

(** [langchain_core.documents.Document]: text and a metadata dict.  The
    dict keeps insertion order, so it is a list of items. *)
Definition Metadata := list (string * string).

Module langchain.
Record Document : Type := {
  page_content : string;
  metadata : Metadata;
}.
End langchain.
Abbreviation Document := langchain.Document.

(** [d[k] = v] on an insertion-ordered dict. *)
Fixpoint dict_set (d : Metadata) (k v : string) : Metadata :=
  match d with
  | [] => [(k, v)]
  | (k', v') :: d' =>
      if String.eqb k' k then (k, v) :: d' else (k', v') :: dict_set d' k v
  end.

(** [fastapi.UploadFile] as the handler sees it: [file.filename] and the
    bytes that [file.file.read()] returns. *)
Module fastapi.
Record UploadFile : Type := {
  filename : option string;
  file : list Byte.byte;
}.
End fastapi.

(** The models of [qdrant_client] that the service reads or builds.
    [CollectionStatus] and [Distance] are string enums of the library. *)
Module qdrant_client.
Inductive CollectionStatus : Type := GREEN | YELLOW | GREY | RED.

Definition value (s : CollectionStatus) : string :=
  match s with
  | GREEN => "green"
  | YELLOW => "yellow"
  | GREY => "grey"
  | RED => "red"
  end.

Inductive Distance : Type := COSINE | EUCLID | DOT | MANHATTAN.

Record VectorParams : Type := {
  size : Z;
  distance : Distance;
}.

Record CollectionInfo : Type := {
  points_count : Z;
  indexed_vectors_count : Z;
  status : CollectionStatus;
}.
End qdrant_client.

(** What a runnable of the chain is invoked with: [query] passes the dict
    [{"question": question}], the async methods pass the question string. *)
Inductive ChainInput : Type :=
| InDict (d : list (string * string))
| InStr (s : string).

(** The retriever that [vector_store.as_retriever(search_type="similarity",
    search_kwargs={"k": k})] returns: a handle on the collection and [k]. *)
Record Retriever : Type := {
  retriever_collection : string;
  retriever_k : Z;
}.

(** A cell of the record that RAGAS returns for the evaluated row. *)
Inductive Cell (float : Type) : Type :=
| CNone
| CFloat (f : float)
| CStr (s : string).
Arguments CNone {float}.
Arguments CFloat {float} f.
Arguments CStr {float} s.

(* ===================================================================== *)
(** * [app/config.py]                                                    *)
(* ===================================================================== *)

Module config.

(** The fields of [Settings] that the modelled code reads.  They come
    from the environment; [default_settings] holds the class defaults. *)
Record Settings : Type := {
  COLLECTION_NAME : string;
  CHUNK_SIZE : Z;
  CHUNK_OVERLAP : Z;
  llm_model : string;
  embedding_model : string;
  top_k_retrieval : Z;
  ragas_log_results : bool;
  ragas_llm_model : option string;
  ragas_embedding_model : option string;
}.

Definition default_settings : Settings := {|
  COLLECTION_NAME := "rag_documents";
  CHUNK_SIZE := 1000;
  CHUNK_OVERLAP := 200;
  llm_model := "gpt-4o-mini";
  embedding_model := "text-embedding-3-small";
  top_k_retrieval := 5;
  ragas_log_results := true;
  ragas_llm_model := None;
  ragas_embedding_model := None;
|}.

End config.

(* ===================================================================== *)
(** * The environment of the ingestion path                              *)
(* ===================================================================== *)

(** Library calls made by [document_processor.py], [vector_store.py] and
    [routes/documents.py].  A call that touches the file system, the Qdrant
    server or the embedding API is a computation over [World]; it may raise
    and it may change the world. *)
Record Env (World : Type) : Type := {
  (** [get_settings()], cached for the life of the process. *)
  get_settings : config.Settings;
  (** [Path(p).suffix] and [str.lower]. *)
  Path_suffix : string -> string;
  str_lower : string -> string;
  (** [str(Path(p))]: the path in its normal form. *)
  Path_str : string -> string;
  (** [str(SUPPORTED_EXTENSIONS)]: the order in which a set of strings
      prints is not fixed by the language. *)
  SUPPORTED_EXTENSIONS_str : string;
  (** [NamedTemporaryFile(delete=False, suffix=s)], writing the bytes and
      closing the file; returns [temp_file.name]. *)
  NamedTemporaryFile_write : string -> list Byte.byte -> M World string;
  (** [Path(p).unlink(missing_ok=True)]. *)
  Path_unlink : string -> M World unit;
  (** [PyPDFLoader(p).load()], [TextLoader(p, encoding='utf-8').load()],
      [CSVLoader(p).load()]. *)
  PyPDFLoader_load : string -> M World (list Document);
  TextLoader_load : string -> M World (list Document);
  CSVLoader_load : string -> M World (list Document);
  (** [RecursiveCharacterTextSplitter(chunk_size=, chunk_overlap=, ...)]:
      the constructor may reject its arguments. *)
  RecursiveCharacterTextSplitter : Z -> Z -> result unit;
  (** [text_splitter.split_documents(documents)] of the splitter built
      with the two sizes. *)
  text_splitter_split_documents : Z -> Z -> list Document -> M World (list Document);
  (** [client.get_collection(name)], [client.create_collection(name,
      vectors_config)], [client.delete_collection(name)],
      [client.get_collections()]. *)
  client_get_collection : string -> M World qdrant_client.CollectionInfo;
  client_create_collection : string -> qdrant_client.VectorParams -> M World unit;
  client_delete_collection : string -> M World unit;
  client_get_collections : M World unit;
  (** [QdrantVectorStore(client=, collection_name=, embedding=)]. *)
  QdrantVectorStore : string -> M World unit;
  (** [vector_store.add_documents(documents, ids=ids)]. *)
  QdrantVectorStore_add_documents :
    string -> list Document -> list string -> M World (list string);
  (** [vector_store.similarity_search(query, k=k)]. *)
  QdrantVectorStore_similarity_search : string -> string -> Z -> M World (list Document);
  (** [str(uuid4())]: draws from the system's random source and cannot
      raise. *)
  uuid4 : World -> string * World;
}.

Arguments get_settings {World} _.
Arguments Path_suffix {World} _ _.
Arguments str_lower {World} _ _.
Arguments Path_str {World} _ _.
Arguments SUPPORTED_EXTENSIONS_str {World} _.
Arguments NamedTemporaryFile_write {World} _ _ _ _.
Arguments Path_unlink {World} _ _ _.
Arguments PyPDFLoader_load {World} _ _ _.
Arguments TextLoader_load {World} _ _ _.
Arguments CSVLoader_load {World} _ _ _.
Arguments RecursiveCharacterTextSplitter {World} _ _ _.
Arguments text_splitter_split_documents {World} _ _ _ _ _.
Arguments client_get_collection {World} _ _ _.
Arguments client_create_collection {World} _ _ _ _.
Arguments client_delete_collection {World} _ _ _.
Arguments client_get_collections {World} _ _.
Arguments QdrantVectorStore {World} _ _ _.
Arguments QdrantVectorStore_add_documents {World} _ _ _ _ _.
Arguments QdrantVectorStore_similarity_search {World} _ _ _ _ _.
Arguments uuid4 {World} _ _.

(* ===================================================================== *)
(** * [app/core/document_processor.py]                                   *)
(* ===================================================================== *)

Module document_processor.
Section WithEnv.
Context {World : Type} (E : Env World).

Definition SUPPORTED_EXTENSIONS : gset string := {[ ".pdf"; ".txt"; ".csv" ]}.

(** The instance: the two sizes; [text_splitter] is the splitter built
    from them. *)
Record DocumentProcessor : Type := {
  chunk_size : Z;
  chunk_overlap : Z;
}.

Definition __init__ (chunk_size chunk_overlap : option Z)
  : M World DocumentProcessor :=
  let settings := get_settings E in
  let chunk_size := or_int chunk_size (config.CHUNK_SIZE settings) in
  let chunk_overlap := or_int chunk_overlap (config.CHUNK_OVERLAP settings) in
  run! lift (RecursiveCharacterTextSplitter E chunk_size chunk_overlap) in
  ret {| chunk_size := chunk_size; chunk_overlap := chunk_overlap |}.

Definition load_pdf (file_path : string) : M World (list Document) :=
  PyPDFLoader_load E (Path_str E file_path).

Definition load_txt (file_path : string) : M World (list Document) :=
  TextLoader_load E (Path_str E file_path).

Definition load_csv (file_path : string) : M World (list Document) :=
  CSVLoader_load E (Path_str E file_path).

Definition loaders : gmap string (string -> M World (list Document)) :=
  <[ ".pdf" := load_pdf ]> (<[ ".txt" := load_txt ]> (<[ ".csv" := load_csv ]> ∅)).

Definition load_file (file_path : string) : M World (list Document) :=
  let extensions := str_lower E (Path_suffix E file_path) in
  if negb (bool_decide (extensions ∈ SUPPORTED_EXTENSIONS)) then
    raise (ValueError ("Unsupported file extension: " +:+ extensions
                       +:+ ". Supported extensions are: "
                       +:+ SUPPORTED_EXTENSIONS_str E))
  else
    match loaders !! extensions with
    | Some load => load file_path
    | None => raise (KeyError extensions)
    end.

(** [doc.metadata['source'] = file_name]. *)
Definition set_source (file_name : string) (doc : Document) : Document :=
  {| langchain.page_content := langchain.page_content doc;
     langchain.metadata :=
       dict_set (langchain.metadata doc) "source" file_name |}.

Definition load_from_upload (file : list Byte.byte) (file_name : string)
  : M World (list Document) :=
  let extension := str_lower E (Path_suffix E file_name) in
  if negb (bool_decide (extension ∈ SUPPORTED_EXTENSIONS)) then
    raise (ValueError ("Unsupported file extension: " +:+ extension
                       +:+ "Supported extensions are: "
                       +:+ SUPPORTED_EXTENSIONS_str E))
  else
    let! temp_path := NamedTemporaryFile_write E extension file in
    try_finally
      (let! documents := load_file temp_path in
       ret (map (set_source file_name) documents))
      (Path_unlink E temp_path).

Definition split_documents (self : DocumentProcessor)
    (documents : list Document) : M World (list Document) :=
  text_splitter_split_documents E (chunk_size self) (chunk_overlap self) documents.

Definition process_file (self : DocumentProcessor) (file_path : string)
  : M World (list Document) :=
  let! documents := load_file file_path in
  split_documents self documents.

Definition process_upload (self : DocumentProcessor)
    (file : list Byte.byte) (filename : string) : M World (list Document) :=
  let! documents := load_from_upload file filename in
  split_documents self documents.

End WithEnv.
End document_processor.

(* ===================================================================== *)
(** * [app/core/vector_store.py]                                         *)
(* ===================================================================== *)

Module vector_store.
Section WithEnv.
Context {World : Type} (E : Env World).

Definition EMBEDDING_DIMENSION : Z := 1536.

(** The instance: [client], [embeddings] and [vector_store] are handles
    on the services behind [E]; the collection name is its only datum. *)
Record VectorStoreService : Type := {
  collection_name : string;
}.

Definition _ensure_collection (self : VectorStoreService) : M World unit :=
  try_except
    (let! collection_info := client_get_collection E (collection_name self) in
     ret tt)
    (fun e =>
       if is_UnexpectedResponse e then
         client_create_collection E (collection_name self)
           {| qdrant_client.size := EMBEDDING_DIMENSION;
              qdrant_client.distance := qdrant_client.COSINE |}
       else raise e).

Definition __init__ (collection_name' : option string)
  : M World VectorStoreService :=
  let self :=
    {| collection_name :=
         or_str collection_name' (config.COLLECTION_NAME (get_settings E)) |} in
  run! _ensure_collection self in
  run! QdrantVectorStore E (collection_name self) in
  ret self.

(** [str(uuid4())] as a computation. *)
Definition str_uuid4 : M World string :=
  fun w => let (s, w') := uuid4 E w in (Ok s, w').

(** The body of [add_documents] for the documents of a call.  The
    parameter [ids] is rebound before it is read, so the body does not
    depend on it. *)
Definition add_documents_body (self : VectorStoreService)
    (documents : list Document) : M World (list string) :=
  if negb (truthy_list documents) then ret []
  else
    let! ids := comprehension (fun _ : Document => str_uuid4) documents in
    run! QdrantVectorStore_add_documents E (collection_name self) documents ids in
    ret ids.

(** The names bound where the class body reaches [def add_documents]:
    the imports and assignments of the module so far, the names the class
    body has bound so far, and, of the builtins, those that begin with
    the letter i. *)
Definition names_in_scope : list string :=
  [ "lru_cache"; "Any"; "uuid4"; "Document"; "QdrantVectorStore";
    "QdrantClient"; "UnexpectedResponse"; "Distance"; "VectorParams";
    "get_settings"; "get_logger"; "get_embeddings";
    "logger"; "settings"; "EMBEDDING_DIMENSION"; "get_qdrant_client";
    "__module__"; "__qualname__"; "__doc__"; "__init__"; "_ensure_collection";
    "id"; "input"; "int"; "isinstance"; "issubclass"; "iter" ].

(** The statement [def add_documents(self, documents, ids=ids)].  The
    default expression is evaluated when the statement runs, in the class
    body: it reads the name [ids], and the statement makes the method
    only if that name is bound. *)
Definition add_documents_def
  : result (VectorStoreService -> list Document -> M World (list string)) :=
  if existsb (String.eqb "ids") names_in_scope then Ok add_documents_body
  else Raise (NameError "name 'ids' is not defined").

(** [self.add_documents(documents)]: a call of the method that the [def]
    statement made. *)
Definition add_documents (self : VectorStoreService)
    (documents : list Document) : M World (list string) :=
  let! method := lift add_documents_def in
  method self documents.

Definition search (self : VectorStoreService) (query : string) (k : option Z)
  : M World (list Document) :=
  let k := or_int k (config.top_k_retrieval (get_settings E)) in
  QdrantVectorStore_similarity_search E (collection_name self) query k.

Definition delete_collection (self : VectorStoreService) : M World unit :=
  client_delete_collection E (collection_name self).

(** The dict that [get_collection_info] returns. *)
Record info_dict : Type := {
  name : string;
  points_count : Z;
  indexed_vectors_count : Z;
  status : string;
}.

Definition get_collection_info (self : VectorStoreService) : M World info_dict :=
  try_except
    (let! info := client_get_collection E (collection_name self) in
     ret {| name := collection_name self;
            points_count := qdrant_client.points_count info;
            indexed_vectors_count := qdrant_client.indexed_vectors_count info;
            status := qdrant_client.value (qdrant_client.status info) |})
    (fun e =>
       if is_UnexpectedResponse e then
         ret {| name := collection_name self;
                points_count := 0;
                indexed_vectors_count := 0;
                status := "not_found" |}
       else raise e).

Definition health_check (self : VectorStoreService) : M World bool :=
  try_except
    (run! client_get_collections E in ret true)
    (fun e => ret false).

Definition get_retriever (self : VectorStoreService) (k : option Z) : Retriever :=
  let k := or_int k (config.top_k_retrieval (get_settings E)) in
  {| retriever_collection := collection_name self; retriever_k := k |}.

End WithEnv.
End vector_store.

(* ===================================================================== *)
(** * [app/api/schemas.py]                                               *)
(* ===================================================================== *)

(** Modelled from the spec: [app/api/schemas.py] is not among the sources.
    The two response models carry the fields that the interface section
    lists and that the handlers pass by keyword. *)
Module schemas.
Record DocumentUploadResponse : Type := {
  message : string;
  filename : string;
  chunks_created : Z;
  document_ids : list string;
}.

Record DocumentListResponse : Type := {
  collection_name : string;
  total_documents : Z;
  status : string;
}.
End schemas.

(* ===================================================================== *)
(** * [app/api/routes/documents.py]                                      *)
(* ===================================================================== *)

Module documents.
Section WithEnv.
Context {World : Type} (E : Env World).

(** The two [except] clauses of [upload_document], tried in order. *)
Definition upload_except {A} (e : exn) : M World A :=
  if is_ValueError e then raise (HTTPException 400 (exn_str e))
  else raise (HTTPException 500 "Internal server error during document upload.").

(** The body of the [try] block of [upload_document].
    [process_upload] and [add_documents] are plain methods whose
    results the handler awaits. *)
Definition upload_try (file : fastapi.UploadFile) (filename : string)
  : M World schemas.DocumentUploadResponse :=
  let! processor := document_processor.__init__ E None None in
  let! chunks :=
    await_plain_list (B := list Document)
      (document_processor.process_upload E processor
         (fastapi.file file) filename) in
  if negb (truthy_list chunks) then
    raise (HTTPException 400 "No content was extracted from the document.")
  else
    let! vector_store := vector_store.__init__ E None in
    let! document_ids :=
      await_plain_list (B := list string)
        (vector_store.add_documents E vector_store chunks) in
    ret {| schemas.message := "Document uploaded and processed successfully.";
           schemas.filename := filename;
           schemas.chunks_created := Z.of_nat (length chunks);
           schemas.document_ids := document_ids |}.

(** [POST /documents/upload]. *)
Definition upload_document (file : fastapi.UploadFile)
  : M World schemas.DocumentUploadResponse :=
  match fastapi.filename file with
  | None => raise (HTTPException 400 "Filename is required.")
  | Some filename =>
      if negb (truthy_str filename) then
        raise (HTTPException 400 "Filename is required.")
      else try_except (upload_try file filename) upload_except
  end.

(** [GET /documents/info]. *)
Definition get_collection_info : M World schemas.DocumentListResponse :=
  try_except
    (let! vector_store := vector_store.__init__ E None in
     let! info := vector_store.get_collection_info E vector_store in
     ret {| schemas.collection_name := vector_store.name info;
            schemas.total_documents := vector_store.points_count info;
            schemas.status := vector_store.status info |})
    (fun e =>
       raise (HTTPException 500
                ("Error getting collection info: " +:+ exn_str e))).

(** [DELETE /documents/collection]: the response is the dict
    [{"message": ...}]. *)
Definition delete_collection : M World string :=
  try_except
    (let! vector_store := vector_store.__init__ E None in
     run! vector_store.delete_collection E vector_store in
     ret "Collection deleted successfully")
    (fun e =>
       raise (HTTPException 500
                ("Error deleting collection: " +:+ exn_str e))).

End WithEnv.
End documents.

(* ===================================================================== *)
(** * [app/main.py]                                                      *)
(* ===================================================================== *)

Module main.

(** The status line of the response to a handler's outcome: 200 for a
    returned model, the status of a raised [HTTPException], and 500 from
    [global_exception_handler] for any other exception. *)
Definition status_code {A} (r : result A) : Z :=
  match r with
  | Ok _ => 200
  | Raise (HTTPException s _) => s
  | Raise _ => 500
  end.

End main.

(* ===================================================================== *)
(** * The environment of the question-answering path                      *)
(* ===================================================================== *)

(** Library calls made by [rag_chain.py] and [ragas_evaluator.py].  The
    scores and the clock are floating-point numbers; their type [float]
    and the operations on them are left to the environment. *)
Record ChainEnv (World float : Type) : Type := {
  (** [retriever.invoke(input)]. *)
  retriever_invoke : Retriever -> ChainInput -> M World (list Document);
  (** [(llm | StrOutputParser()).invoke(prompt)]: the chat model's reply
      to the prompt text, as a string. *)
  llm_invoke : string -> M World string;
  (** [str(x)] for the value that fills a field of the prompt. *)
  input_str : ChainInput -> string;
  (** [ChatOpenAI(...)] and [OpenAIEmbeddings(...)] as constructed by
      [RAGASEvaluator.__init__] for the two model names. *)
  ChatOpenAI : string -> M World unit;
  OpenAIEmbeddings : string -> M World unit;
  (** [time.time()]. *)
  time_time : World -> float * World;
  (** [(a - b) * 1000] and [round(x, 2)]. *)
  elapsed_ms : float -> float -> float;
  round2 : float -> float;
  (** [float(s)] for a string. *)
  float_of_str : string -> result float;
  (** [Dataset.from_dict(data)] for the one-row table: it validates the
      columns [question], [answer], [contexts]. *)
  Dataset_from_dict : string -> string -> list string -> M World unit;
  (** [evaluate(dataset, metrics=[faithfulness, answer_relevancy], llm=,
      embeddings=).to_pandas().to_dict("records")[0]], run through
      [asyncio.to_thread]: the evaluated row as a dict. *)
  ragas_evaluate : string -> string -> list string -> M World (list (string * Cell float));
}.

Arguments retriever_invoke {World float} _ _ _ _.
Arguments llm_invoke {World float} _ _ _.
Arguments input_str {World float} _ _.
Arguments ChatOpenAI {World float} _ _ _.
Arguments OpenAIEmbeddings {World float} _ _ _.
Arguments time_time {World float} _ _.
Arguments elapsed_ms {World float} _ _ _.
Arguments round2 {World float} _ _.
Arguments float_of_str {World float} _ _.
Arguments Dataset_from_dict {World float} _ _ _ _ _.
Arguments ragas_evaluate {World float} _ _ _ _ _.

(** [d[k]] / [k in d] on a dict given by its items. *)
Fixpoint dict_get {V : Type} (d : list (string * V)) (k : string) : option V :=
  match d with
  | [] => None
  | (k', v) :: d' => if String.eqb k' k then Some v else dict_get d' k
  end.

(* ===================================================================== *)
(** * [app/core/ragas_evaluator.py]                                      *)
(* ===================================================================== *)

Module ragas_evaluator.
Section WithEnv.
Context {World float : Type} (E : Env World) (C : ChainEnv World float).

(** The instance: the settings and the two model names that its [llm]
    and [embedding_model] were built for.  The sampling temperature is
    passed through to the client and is not part of the model. *)
Record RAGASEvaluator : Type := {
  settings : config.Settings;
  eval_llm_model : string;
  eval_embedding_model : string;
}.

Definition __init__ : M World RAGASEvaluator :=
  let settings := get_settings E in
  let eval_llm_model :=
    or_str (config.ragas_llm_model settings) (config.llm_model settings) in
  let eval_embedding_model :=
    or_str (config.ragas_embedding_model settings)
           (config.embedding_model settings) in
  run! ChatOpenAI C eval_llm_model in
  run! OpenAIEmbeddings C eval_embedding_model in
  ret {| settings := settings;
         eval_llm_model := eval_llm_model;
         eval_embedding_model := eval_embedding_model |}.

(** The dict of scores that [aevaluate] returns and that
    [aquery_with_evaluation] rebuilds on failure: [None] is [null]. *)
Record scores : Type := {
  faithfulness : option float;
  answer_relevancy : option float;
  evaluation_time_ms : option float;
  error : option string;
}.

(** The one-row table handed to RAGAS. *)
Record Dataset : Type := {
  question : list string;
  answer : list string;
  contexts : list (list string);
}.

Definition _prepare_dataset (self : RAGASEvaluator)
    (question answer : string) (contexts : list string) : M World Dataset :=
  run! Dataset_from_dict C question answer contexts in
  ret {| question := [question]; answer := [answer]; contexts := [contexts] |}.

Definition _evaluate_with_timeout (self : RAGASEvaluator) (dataset : Dataset)
  : M World (list (string * Cell float)) :=
  match question dataset, answer dataset, contexts dataset with
  | [q], [a], [c] => ragas_evaluate C q a c
  | _, _, _ => raise (OtherException "malformed dataset")
  end.

Definition _handle_evaluation_error (self : RAGASEvaluator) (error : exn)
  : scores :=
  {| faithfulness := None;
     answer_relevancy := None;
     evaluation_time_ms := None;
     error := Some (exn_str error) |}.

(** [float(x)]. *)
Definition py_float (x : Cell float) : result float :=
  match x with
  | CNone =>
      Raise (TypeError
        "float() argument must be a string or a real number, not 'NoneType'")
  | CFloat f => Ok f
  | CStr s => float_of_str C s
  end.

(** [float(result[k] if k in result else None)]. *)
Definition score (result' : list (string * Cell float)) (k : string)
  : result float :=
  py_float (match dict_get result' k with Some v => v | None => CNone end).

Definition now : M World float :=
  fun w => let (t, w') := time_time C w in (Ok t, w').

(** The [try] block of [aevaluate]. *)
Definition aevaluate_try (self : RAGASEvaluator) (start_time : float)
    (question answer : string) (contexts : list string) : M World scores :=
  let! dataset := _prepare_dataset self question answer contexts in
  let! result := await_coroutine (_evaluate_with_timeout self dataset) in
  let! end_time := now in
  let evaluation_time_ms := elapsed_ms C end_time start_time in
  let! f := lift (score result "faithfulness") in
  let! r := lift (score result "answer_relevancy") in
  ret {| faithfulness := Some f;
         answer_relevancy := Some r;
         evaluation_time_ms := Some (round2 C evaluation_time_ms);
         error := None |}.

Definition aevaluate (self : RAGASEvaluator)
    (question answer : string) (contexts : list string) : M World scores :=
  let! start_time := now in
  try_except
    (aevaluate_try self start_time question answer contexts)
    (fun e => ret (_handle_evaluation_error self e)).

End WithEnv.
End ragas_evaluator.

(* ===================================================================== *)
(** * [app/core/rag_chain.py]                                            *)
(* ===================================================================== *)

Module rag_chain.
Section WithEnv.
Context {World float : Type} (E : Env World) (C : ChainEnv World float).

Definition dquote : string := String "034"%char EmptyString.
Definition newline : string := String "010"%char EmptyString.

(** The sentence that the template tells the model to say. *)
Definition FALLBACK_PHRASE : string :=
  "I don't have enough information to answer that question.".

(** A template is literal text with named fields [{name}]. *)
Inductive piece : Type :=
| Text (s : string)
| Field (name : string).

Definition RAG_PROMPT_TEMPLATE : list piece :=
  [ Text ("You are a helpful assistant. Answer the question based on the provided context."
          +:+ newline +:+ newline
          +:+ "If you cannot answer the question based on the context, say "
          +:+ dquote +:+ FALLBACK_PHRASE +:+ dquote
          +:+ newline +:+ newline
          +:+ "Do not make up information. Only use the context provided."
          +:+ newline +:+ newline
          +:+ "Context:" +:+ newline);
    Field "context";
    Text (newline +:+ newline +:+ "Question: ");
    Field "question";
    Text (newline +:+ newline +:+ "Answer:") ].

(** [ChatPromptTemplate.from_template(t).invoke(vars)], as text. *)
Fixpoint format_template (t : list piece) (vars : list (string * string))
  : result string :=
  match t with
  | [] => Ok ""
  | p :: t' =>
      match (match p with
             | Text s => Ok s
             | Field n =>
                 match dict_get vars n with
                 | Some v => Ok v
                 | None => Raise (KeyError n)
                 end
             end), format_template t' vars with
      | Ok s, Ok r => Ok (s +:+ r)
      | Raise e, _ => Raise e
      | _, Raise e => Raise e
      end
  end.

Definition format_docs (docs : list Document) : string :=
  String.concat (newline +:+ newline) (map langchain.page_content docs).

(** A runnable that maps the chain's input to a string. *)
Definition Runnable : Type := ChainInput -> M World string.

(** The instance.  An attribute that was never assigned is [None] here;
    [_evaluator], once assigned, holds [None] or an evaluator.  [llm]
    and [prompt] only feed [chain] and are not kept. *)
Record RAGChain : Type := {
  vector_store : option vector_store.VectorStoreService;
  retriever : option Retriever;
  _evaluator : option (option ragas_evaluator.RAGASEvaluator);
  chain : option Runnable;
}.

(** Methods run on the instance and the world. *)
Definition Obj : Type := (RAGChain * World)%type.

Definition world {A} (m : M World A) : M Obj A :=
  fun ow => let (r, w') := m (snd ow) in (r, (fst ow, w')).

(** [self.name]. *)
Definition getattr {A} (name : string) (field : RAGChain -> option A) : M Obj A :=
  fun ow =>
    match field (fst ow) with
    | Some v => (Ok v, ow)
    | None =>
        (Raise (AttributeError
           ("'RAGChain' object has no attribute '" +:+ name +:+ "'")), ow)
    end.

(** [self.name = v]. *)
Definition setattr (update : RAGChain -> RAGChain) : M Obj unit :=
  fun ow => (Ok tt, (update (fst ow), snd ow)).

Definition set_vector_store v (o : RAGChain) : RAGChain :=
  {| vector_store := Some v; retriever := retriever o;
     _evaluator := _evaluator o; chain := chain o |}.
Definition set_retriever r (o : RAGChain) : RAGChain :=
  {| vector_store := vector_store o; retriever := Some r;
     _evaluator := _evaluator o; chain := chain o |}.
Definition set__evaluator e (o : RAGChain) : RAGChain :=
  {| vector_store := vector_store o; retriever := retriever o;
     _evaluator := Some e; chain := chain o |}.
Definition set_chain c (o : RAGChain) : RAGChain :=
  {| vector_store := vector_store o; retriever := retriever o;
     _evaluator := _evaluator o; chain := Some c |}.

(** The runnable that [__init] composes:
    [{"context": retriever | format_docs, "question": RunnablePassthrough()}
     | prompt | llm | StrOutputParser()]. *)
Definition rag_pipeline (retriever : Retriever) : Runnable :=
  fun input =>
    let! docs := retriever_invoke C retriever input in
    let context := format_docs docs in
    let! prompt :=
      lift (format_template RAG_PROMPT_TEMPLATE
              [("context", context); ("question", input_str C input)]) in
    llm_invoke C prompt.

(** [RAGChain()]: the class defines the method [__init], not
    [__init__], so construction assigns no attribute. *)
Definition RAGChain_new : RAGChain :=
  {| vector_store := None; retriever := None;
     _evaluator := None; chain := None |}.

(** The method [__init].  Building [ChatOpenAI] reads
    [settings.openai_api_key]; [Settings] declares [OPENAI_API_KEY] and
    has no attribute of that name, so the read raises and the
    assignments after it are not reached. *)
Definition __init (vector_store_service : option vector_store.VectorStoreService)
  : M Obj unit :=
  let! vs :=
    match vector_store_service with
    | Some v => ret v
    | None => world (vector_store.__init__ E None)
    end in
  run! setattr (set_vector_store vs) in
  let r := vector_store.get_retriever E vs None in
  run! setattr (set_retriever r) in
  run! setattr (set__evaluator None) in
  run! raise (A := unit)
         (AttributeError
            "'Settings' object has no attribute 'openai_api_key'") in
  setattr (set_chain (rag_pipeline r)).

(** The property [evaluator]. *)
Definition evaluator : M Obj ragas_evaluator.RAGASEvaluator :=
  let! current := getattr "_evaluator" _evaluator in
  match current with
  | None =>
      let! created := world (ragas_evaluator.__init__ E C) in
      run! setattr (set__evaluator (Some created)) in
      ret created
  | Some ev => ret ev
  end.

Definition query (question : string) : M Obj string :=
  try_except
    (let! chain := getattr "chain" chain in
     let! answer := world (chain (InDict [("question", question)])) in
     ret answer)
    (fun e => raise e).

(** An entry of [sources]. *)
Record source : Type := {
  content : string;
  metadata : Metadata;
}.

(** [doc.page_content[:500] + "..." if len(doc.page_content) > 500
    else doc.page_content], with the document's metadata. *)
Definition format_source (doc : Document) : source :=
  {| content :=
       if (500 <? Z.of_nat (String.length (langchain.page_content doc)))%Z
       then substring 0 500 (langchain.page_content doc) +:+ "..."
       else langchain.page_content doc;
     metadata := langchain.metadata doc |}.

(** The dict [{"answer": ..., "sources": ...}]. *)
Record answer_with_sources : Type := {
  answer : string;
  sources : list source;
}.

Definition query_with_sources (question : string) : M Obj answer_with_sources :=
  try_except
    (let! chain := getattr "chain" chain in
     let! answer := world (chain (InDict [("question", question)])) in
     let! retriever := getattr "retriever" retriever in
     let! source_docs := world (retriever_invoke C retriever (InStr question)) in
     let sources := map format_source source_docs in
     ret {| answer := answer; sources := sources |})
    (fun e => raise e).

Definition aquery (question : string) : M Obj string :=
  try_except
    (let! chain := getattr "chain" chain in
     let! answer := await_coroutine (world (chain (InDict [("question", question)]))) in
     ret answer)
    (fun e => raise e).

Definition aquery_with_sources (question : string) : M Obj answer_with_sources :=
  try_except
    (let! chain := getattr "chain" chain in
     let! answer := await_coroutine (world (chain (InStr question))) in
     let! retriever := getattr "retriever" retriever in
     let! source_docs := world (retriever_invoke C retriever (InStr question)) in
     let sources := map format_source source_docs in
     ret {| answer := answer; sources := sources |})
    (fun e => raise e).

(** The dict [{"answer": ..., "sources": ..., "evaluation": ...}]. *)
Record evaluated_answer : Type := {
  ev_answer : string;
  ev_sources : list source;
  evaluation : ragas_evaluator.scores (float := float);
}.

(** The evaluation step: the body of the inner [try]. *)
Definition evaluation_step (question answer : string) (contexts : list string)
  : M Obj (ragas_evaluator.scores (float := float)) :=
  let! ev := evaluator in
  await_coroutine
    (world (ragas_evaluator.aevaluate C ev question answer contexts)).

Definition aquery_with_evaluation (question : string) (include_sources : bool)
  : M Obj evaluated_answer :=
  try_except
    (let! result := await_coroutine (aquery_with_sources question) in
     let answer := answer result in
     let sources := sources result in
     let contexts := map content sources in
     let! evaluation :=
       try_except
         (evaluation_step question answer contexts)
         (fun e =>
            ret {| ragas_evaluator.faithfulness := None;
                   ragas_evaluator.answer_relevancy := None;
                   ragas_evaluator.evaluation_time_ms := None;
                   ragas_evaluator.error := Some (exn_str e) |}) in
     ret {| ev_answer := answer; ev_sources := sources;
            evaluation := evaluation |})
    (fun e => raise e).

End WithEnv.
End rag_chain.

(* ===================================================================== *)
(** * In-memory services                                                 *)
(* ===================================================================== *)

(** A small implementation of the environment, in the manner of the test
    doubles of an integration test: a file table, a table of collections,
    a counter for generated names and a clock.  It is used to run the
    handlers on concrete requests. *)
Module memory.

Record World : Type := {
  files : gmap string (list Byte.byte);
  collections : gmap string (list (string * Document));
  counter : nat;
  clock : Z;
  calls : list string;
}.

Definition empty : World :=
  {| files := ∅; collections := ∅; counter := 0%nat; clock := 0; calls := [] |}.

Definition log (c : string) (w : World) : World :=
  {| files := files w; collections := collections w; counter := counter w;
     clock := clock w; calls := calls w ++ [c] |}.

Definition with_files f (w : World) : World :=
  {| files := f; collections := collections w; counter := counter w;
     clock := clock w; calls := calls w |}.

Definition with_collections c (w : World) : World :=
  {| files := files w; collections := c; counter := counter w;
     clock := clock w; calls := calls w |}.

Definition tick (w : World) : World :=
  {| files := files w; collections := collections w;
     counter := S (counter w); clock := (clock w + 1)%Z; calls := calls w |}.

(** The part of [s] after the last occurrence of [c]. *)
Fixpoint after_last (c : ascii) (s : string) : option string :=
  match s with
  | EmptyString => None
  | String a s' =>
      match after_last c s' with
      | Some r => Some r
      | None => if Ascii.eqb a c then Some s' else None
      end
  end.

(** [Path(p).suffix]: the last dot of the final component counts when
    it is neither its first nor its last character. *)
Definition suffix (p : string) : string :=
  let name := match after_last "/" p with Some r => r | None => p end in
  match name with
  | EmptyString => ""
  | String _ rest =>
      match after_last "." rest with
      | Some ext => if String.eqb ext "" then "" else "." +:+ ext
      | None => ""
      end
  end.

(** The components of a path: the pieces between slashes. *)
Fixpoint components (s : string) (piece : string) : list string :=
  match s with
  | EmptyString => [piece]
  | String a s' =>
      if Ascii.eqb a "/" then piece :: components s' ""
      else components s' (piece +:+ String a EmptyString)
  end.

(** [str(Path(p))] for a path with at most one leading slash: empty and
    "." components are dropped, a leading slash is kept, and the empty
    path is ".". *)
Definition normal (p : string) : string :=
  let kept :=
    filter (fun c => negb (String.eqb c "" || String.eqb c ".")) (components p "") in
  match p with
  | String "/" _ => "/" +:+ String.concat "/" kept
  | _ => match kept with [] => "." | _ => String.concat "/" kept end
  end.

Definition lower_ascii (a : ascii) : ascii :=
  let n := nat_of_ascii a in
  if (65 <=? n)%nat && (n <=? 90)%nat then ascii_of_nat (n + 32) else a.

Fixpoint lower (s : string) : string :=
  match s with
  | EmptyString => EmptyString
  | String a s' => String (lower_ascii a) (lower s')
  end.

Definition write_temp (suffix : string) (data : list Byte.byte) : M World string :=
  fun w =>
    let path := "/tmp/tmp" +:+ pretty (counter w) +:+ suffix in
    (Ok path, log "NamedTemporaryFile" (tick (with_files (<[path := data]> (files w)) w))).

Definition unlink (path : string) : M World unit :=
  fun w => (Ok tt, log "unlink" (with_files (delete path (files w)) w)).

(** A loader yields one document holding the file's text. *)
Definition load (path : string) : M World (list Document) :=
fun w =>
  match files w !! path with
  | Some data =>
      (Ok [ {| langchain.page_content := string_of_list_byte data;
               langchain.metadata := [("source", path)] |} ],
       log "load" w)
  | None => (Raise (OtherException ("Error loading " +:+ path)), log "load" w)
  end.

(** The checks of the splitter's constructor. *)
Definition splitter (chunk_size chunk_overlap : Z) : result unit :=
  if (chunk_size <=? 0)%Z then Raise (ValueError "chunk_size must be > 0")
  else if (chunk_overlap <? 0)%Z then Raise (ValueError "chunk_overlap must be >= 0")
  else if (chunk_size <? chunk_overlap)%Z then
    Raise (ValueError "Got a larger chunk overlap than chunk size")
  else Ok tt.

(** A stand-in for the splitter: a document without text gives no chunk,
    any other document gives one chunk of at most [chunk_size]
    characters. *)
Definition split (chunk_size chunk_overlap : Z) (docs : list Document)
  : M World (list Document) :=
  fun w =>
    (Ok (map (fun d =>
                {| langchain.page_content :=
                     substring 0 (Z.to_nat chunk_size) (langchain.page_content d);
                   langchain.metadata := langchain.metadata d |})
             (filter (fun d => truthy_str (langchain.page_content d)) docs)),
     log "split_documents" w).

Definition get_collection (name : string) : M World qdrant_client.CollectionInfo :=
  fun w =>
    match collections w !! name with
    | Some points =>
        (Ok {| qdrant_client.points_count := Z.of_nat (length points);
               qdrant_client.indexed_vectors_count := 0;
               qdrant_client.status := qdrant_client.GREEN |},
         log "get_collection" w)
    | None =>
        (Raise (UnexpectedResponse "404 (Not Found)"), log "get_collection" w)
    end.

Definition create_collection (name : string) (_ : qdrant_client.VectorParams)
  : M World unit :=
  fun w =>
    match collections w !! name with
    | Some _ => (Raise (UnexpectedResponse "409 (Conflict)"), log "create_collection" w)
    | None =>
        (Ok tt, log "create_collection"
                  (with_collections (<[name := []]> (collections w)) w))
    end.

Definition delete_collection (name : string) : M World unit :=
  fun w => (Ok tt, log "delete_collection"
                     (with_collections (delete name (collections w)) w)).

Definition get_collections : M World unit :=
  fun w => (Ok tt, log "get_collections" w).

Definition vector_store_init (name : string) : M World unit :=
  fun w => (Ok tt, w).

Definition add (name : string) (docs : list Document) (ids : list string)
  : M World (list string) :=
  fun w =>
    match collections w !! name with
    | Some points =>
        (Ok ids, log "add_documents"
                   (with_collections
                      (<[name := points ++ combine ids docs]> (collections w)) w))
    | None => (Raise (UnexpectedResponse "404 (Not Found)"), log "add_documents" w)
    end.

Definition nearest (name : string) (k : Z) : M World (list Document) :=
  fun w =>
    match collections w !! name with
    | Some points => (Ok (map snd (firstn (Z.to_nat k) points)), log "search" w)
    | None => (Raise (UnexpectedResponse "404 (Not Found)"), log "search" w)
    end.

Definition uuid (w : World) : string * World :=
  ("uuid-" +:+ pretty (counter w), tick w).

Definition env (settings : config.Settings) : Env World := {|
  get_settings := settings;
  Path_suffix := suffix;
  str_lower := lower;
  Path_str := normal;
  SUPPORTED_EXTENSIONS_str := "{'.pdf', '.txt', '.csv'}";
  NamedTemporaryFile_write := write_temp;
  Path_unlink := unlink;
  PyPDFLoader_load := load;
  TextLoader_load := load;
  CSVLoader_load := load;
  RecursiveCharacterTextSplitter := splitter;
  text_splitter_split_documents := split;
  client_get_collection := get_collection;
  client_create_collection := create_collection;
  client_delete_collection := delete_collection;
  client_get_collections := get_collections;
  QdrantVectorStore := vector_store_init;
  QdrantVectorStore_add_documents := add;
  QdrantVectorStore_similarity_search := fun name _ k => nearest name k;
  uuid4 := uuid;
|}.

(** The question-answering services: a chat model that always gives
    [reply] and an evaluation whose outcome is [verdict].  Scores and
    times are integers here. *)
Definition chain_env (reply : string)
    (verdict : result (list (string * Cell Z))) : ChainEnv World Z := {|
  retriever_invoke := fun r _ =>
    nearest (retriever_collection r) (retriever_k r);
  llm_invoke := fun _ w => (Ok reply, log "llm" w);
  input_str := fun x =>
    match x with
    | InStr s => s
    | InDict d => "{" +:+ String.concat ", " (map (fun kv => "'" +:+ fst kv +:+ "': '" +:+ snd kv +:+ "'") d) +:+ "}"
    end;
  ChatOpenAI := fun _ w => (Ok tt, w);
  OpenAIEmbeddings := fun _ w => (Ok tt, w);
  time_time := fun w => (clock w, tick w);
  elapsed_ms := fun a b => ((a - b) * 1000)%Z;
  round2 := fun x => x;
  float_of_str := fun s => Raise (ValueError ("could not convert string to float: '" +:+ s +:+ "'"));
  Dataset_from_dict := fun _ _ _ w => (Ok tt, w);
  ragas_evaluate := fun _ _ _ w => (verdict, log "evaluate" w);
|}.

(** Requests used below. *)
Definition txt (name : string) (text : string) : fastapi.UploadFile :=
  {| fastapi.filename := Some name; fastapi.file := list_byte_of_string text |}.

End memory.

(* ===================================================================== *)
(** * Vocabulary of the statements                                       *)
(* ===================================================================== *)

(** [n] successive draws of [str(uuid4())], in order. *)
Fixpoint uuid4_draws {World : Type} (E : Env World) (n : nat) (w : World)
  : list string * World :=
  match n with
  | O => ([], w)
  | S n' =>
      let (s, w1) := uuid4 E w in
      let (l, w2) := uuid4_draws E n' w1 in
      (s :: l, w2)
  end.

(** The snippet of a text as the interface describes it: the text itself
    when it has at most 500 characters, otherwise its first 500 characters
    followed by three dots. *)
Definition snippet (text : string) : string :=
  if (String.length text <=? 500)%nat then text
  else substring 0 500 text +:+ "...".

(** The source entry described for a retrieved document. *)
Definition source_entry (doc : Document) : rag_chain.source :=
  {| rag_chain.content := snippet (langchain.page_content doc);
     rag_chain.metadata := langchain.metadata doc |}.

(** The evaluation part on failure: null scores and the message. *)
Definition null_scores {float : Type} (e : exn) : ragas_evaluator.scores :=
  {| ragas_evaluator.faithfulness := @None float;
     ragas_evaluator.answer_relevancy := None;
     ragas_evaluator.evaluation_time_ms := None;
     ragas_evaluator.error := Some (exn_str e) |}.

(** The evaluation step of a request fails with [e], from the instance
    and world [ow1] to [ow2]: either no evaluator can be obtained, or the
    evaluation proper (preparing the table, running RAGAS, reading the
    scores) raises inside [aevaluate]. *)
Definition evaluation_fails {World float : Type}
    (E : Env World) (C : ChainEnv World float)
    (question answer : string) (contexts : list string)
    (ow1 : rag_chain.Obj) (e : exn) (ow2 : rag_chain.Obj) : Prop :=
  rag_chain.evaluator E C ow1 = (Raise e, ow2)
  \/ exists ev o w1 t w2 w3,
       rag_chain.evaluator E C ow1 = (Ok ev, (o, w1))
       /\ ragas_evaluator.now C w1 = (Ok t, w2)
       /\ ragas_evaluator.aevaluate_try C ev t question answer contexts w2
          = (Raise e, w3)
       /\ ow2 = (o, w3).

(** The prompt that the template gives for a context and a question. *)
Definition rag_prompt (context question : string) : string :=
  "You are a helpful assistant. Answer the question based on the provided context."
  +:+ rag_chain.newline +:+ rag_chain.newline
  +:+ "If you cannot answer the question based on the context, say "
  +:+ rag_chain.dquote +:+ rag_chain.FALLBACK_PHRASE +:+ rag_chain.dquote
  +:+ rag_chain.newline +:+ rag_chain.newline
  +:+ "Do not make up information. Only use the context provided."
  +:+ rag_chain.newline +:+ rag_chain.newline
  +:+ "Context:" +:+ rag_chain.newline
  +:+ context
  +:+ rag_chain.newline +:+ rag_chain.newline +:+ "Question: "
  +:+ question
  +:+ rag_chain.newline +:+ rag_chain.newline +:+ "Answer:".

(** Sample configurations, services and instances. *)
Module samples.


Definition E0 : Env memory.World := memory.env config.default_settings.

(** A chat model that answers "42"; RAGAS fails with a rate limit. *)
Definition C0 : ChainEnv memory.World Z :=
  memory.chain_env "42" (Raise (OtherException "rate limit exceeded")).

(** A server that holds the configured collection, empty. *)
Definition empty_collection : memory.World :=
  memory.with_collections {[ "rag_documents" := [] ]} memory.empty.

Definition r0 : Retriever :=
  {| retriever_collection := "rag_documents"; retriever_k := 5 |}.

(** An instance whose attributes hold what [__init] assigns. *)
Definition chain0 : rag_chain.RAGChain := {|
  rag_chain.vector_store :=
    Some {| vector_store.collection_name := "rag_documents" |};
  rag_chain.retriever := Some r0;
  rag_chain._evaluator := Some None;
  rag_chain.chain := Some (rag_chain.rag_pipeline C0 r0);
|}.

Definition doc (text : string) : Document :=
  {| langchain.page_content := text; langchain.metadata := [("source", "a.txt")] |}.

(** A server whose collection holds one short document. *)
Definition one_document : memory.World :=
  memory.with_collections {[ "rag_documents" := [("id-1", doc "Paris is in France.")] ]}
    memory.empty.

(** A file table that holds one text file. *)
Definition one_file : memory.World :=
  memory.with_files {[ "/data/a.txt" := list_byte_of_string "hello" ]} memory.empty.

Definition processor0 : document_processor.DocumentProcessor :=
  {| document_processor.chunk_size := 1000;
     document_processor.chunk_overlap := 200 |}.

Definition service0 : vector_store.VectorStoreService :=
  {| vector_store.collection_name := "rag_documents" |}.

Definition evaluator0 : ragas_evaluator.RAGASEvaluator :=
  {| ragas_evaluator.settings := config.default_settings;
     ragas_evaluator.eval_llm_model := "gpt-4o-mini";
     ragas_evaluator.eval_embedding_model := "text-embedding-3-small" |}.

(** RAGAS returns both scores. *)
Definition C_scored : ChainEnv memory.World Z :=
  memory.chain_env "Paris"
    (Ok [("faithfulness", CFloat 1); ("answer_relevancy", CFloat 2)]).

(** RAGAS returns a row without the faithfulness score. *)
Definition C_partial : ChainEnv memory.World Z :=
  memory.chain_env "Paris" (Ok [("answer_relevancy", CFloat 2)]).

(** A server that cannot be reached: every lookup fails with an error
    that is not an [UnexpectedResponse]. *)
Definition E_down : Env memory.World := {|
  get_settings := get_settings E0;
  Path_suffix := Path_suffix E0;
  str_lower := str_lower E0;
  Path_str := Path_str E0;
  SUPPORTED_EXTENSIONS_str := SUPPORTED_EXTENSIONS_str E0;
  NamedTemporaryFile_write := NamedTemporaryFile_write E0;
  Path_unlink := Path_unlink E0;
  PyPDFLoader_load := PyPDFLoader_load E0;
  TextLoader_load := TextLoader_load E0;
  CSVLoader_load := CSVLoader_load E0;
  RecursiveCharacterTextSplitter := RecursiveCharacterTextSplitter E0;
  text_splitter_split_documents := text_splitter_split_documents E0;
  client_get_collection := fun _ w =>
    (Raise (OtherException "connection refused"), memory.log "get_collection" w);
  client_create_collection := client_create_collection E0;
  client_delete_collection := client_delete_collection E0;
  client_get_collections := fun w =>
    (Raise (OtherException "connection refused"), memory.log "get_collections" w);
  QdrantVectorStore := QdrantVectorStore E0;
  QdrantVectorStore_add_documents := QdrantVectorStore_add_documents E0;
  QdrantVectorStore_similarity_search := QdrantVectorStore_similarity_search E0;
  uuid4 := uuid4 E0;
|}.

(** A server on which every lookup reports the collection missing, also
    after it accepted the creation. *)
Definition E_lost : Env memory.World := {|
  get_settings := get_settings E0;
  Path_suffix := Path_suffix E0;
  str_lower := str_lower E0;
  Path_str := Path_str E0;
  SUPPORTED_EXTENSIONS_str := SUPPORTED_EXTENSIONS_str E0;
  NamedTemporaryFile_write := NamedTemporaryFile_write E0;
  Path_unlink := Path_unlink E0;
  PyPDFLoader_load := PyPDFLoader_load E0;
  TextLoader_load := TextLoader_load E0;
  CSVLoader_load := CSVLoader_load E0;
  RecursiveCharacterTextSplitter := RecursiveCharacterTextSplitter E0;
  text_splitter_split_documents := text_splitter_split_documents E0;
  client_get_collection := fun _ w =>
    (Raise (UnexpectedResponse "404 (Not Found)"), memory.log "get_collection" w);
  client_create_collection := fun _ _ w =>
    (Ok tt, memory.log "create_collection" w);
  client_delete_collection := client_delete_collection E0;
  client_get_collections := client_get_collections E0;
  QdrantVectorStore := QdrantVectorStore E0;
  QdrantVectorStore_add_documents := QdrantVectorStore_add_documents E0;
  QdrantVectorStore_similarity_search := QdrantVectorStore_similarity_search E0;
  uuid4 := uuid4 E0;
|}.

End samples.

(* ===================================================================== *)
(** * Properties of the upload handler                                   *)
(* ===================================================================== *)

Section Upload.
Context {World : Type} (E : Env World).

(** On an unsupported extension [load_from_upload] raises [ValueError]
    before it touches the world. *)
Lemma load_from_upload_unsupported (data : list Byte.byte) (file_name : string) (w : World) :
  str_lower E (Path_suffix E file_name) ∉ document_processor.SUPPORTED_EXTENSIONS ->
  document_processor.load_from_upload E data file_name w
  = (Raise (ValueError ("Unsupported file extension: "
                        +:+ str_lower E (Path_suffix E file_name)
                        +:+ "Supported extensions are: "
                        +:+ SUPPORTED_EXTENSIONS_str E)), w).
Proof.
  intros Hext. unfold document_processor.load_from_upload.
  rewrite bool_decide_eq_false_2 by exact Hext. reflexivity.
Qed.

(** Constructing the processor leaves the world as it was. *)
Lemma processor_init_world cs co (w : World) :
  snd (document_processor.__init__ E cs co w) = w.
Proof.
  unfold document_processor.__init__, bind, lift, ret.
  destruct (RecursiveCharacterTextSplitter E _ _); reflexivity.
Qed.

(** The second [except] clause also catches an [HTTPException] raised
    inside the [try] block: it is an [Exception] and not a
    [ValueError]. *)
Lemma upload_except_HTTPException {A} (s : Z) (d : string) (w : World) :
  documents.upload_except (A := A) (HTTPException s d) w
  = (Raise (HTTPException 500 "Internal server error during document upload."), w).
Proof. reflexivity. Qed.

(** Awaiting the result of a plain method never yields a value. *)
Lemma await_plain_list_raises {A B} (call : M World (list A)) (w : World) :
  (exists l w', call w = (Ok l, w')
     /\ await_plain_list (B := B) call w
        = (Raise (TypeError "object list can't be used in 'await' expression"), w'))
  \/ (exists e w', call w = (Raise e, w')
        /\ await_plain_list (B := B) call w = (Raise e, w')).
Proof.
  unfold await_plain_list, bind, raise.
  destruct (call w) as [[l|e] w'] eqn:Hc; [left | right]; eauto.
Qed.

(** The [try] block of [upload_document] never completes: the handler
    cannot return a response model. *)
Lemma upload_try_raises (file : fastapi.UploadFile) (filename : string) (w : World) :
  exists e, fst (documents.upload_try E file filename w) = Raise e.
Proof.
  unfold documents.upload_try, bind.
  destruct (document_processor.__init__ E None None w) as [[p|e] w1]; [|eauto].
  destruct (await_plain_list_raises (B := list Document)
              (document_processor.process_upload E p (fastapi.file file) filename) w1)
    as [(l & w' & _ & ->) | (e & w' & _ & ->)]; eauto.
Qed.

Lemma upload_document_raises (file : fastapi.UploadFile) (w : World) :
  exists s d, fst (documents.upload_document E file w) = Raise (HTTPException s d).
Proof.
  unfold documents.upload_document.
  destruct (fastapi.filename file) as [fname|]; [|cbn; eauto].
  destruct (negb (truthy_str fname)); [cbn; eauto|].
  unfold try_except.
  destruct (upload_try_raises file fname w) as [e He].
  destruct (documents.upload_try E file fname w) as [r w1]. cbn in He. subst r.
  unfold documents.upload_except, raise.
  destruct (is_ValueError e); cbn; eauto.
Qed.

(** Whenever the processor is constructed and [process_upload] returns a
    list, empty or not, the handler answers 500. *)
Lemma upload_processed_is_500 (file : fastapi.UploadFile) (name : string)
    (w w1 w2 : World) (p : document_processor.DocumentProcessor)
    (chunks : list Document) :
  fastapi.filename file = Some name ->
  truthy_str name = true ->
  document_processor.__init__ E None None w = (Ok p, w1) ->
  document_processor.process_upload E p (fastapi.file file) name w1 = (Ok chunks, w2) ->
  documents.upload_document E file w
  = (Raise (HTTPException 500 "Internal server error during document upload."), w2).
Proof.
  intros Hfile Hname Hinit Hproc.
  unfold documents.upload_document. rewrite Hfile, Hname. cbn [negb].
  unfold try_except, documents.upload_try. unfold bind at 1. rewrite Hinit.
  unfold bind at 1. unfold await_plain_list, bind. rewrite Hproc. reflexivity.
Qed.

End Upload.

(** C9. A request whose file has no filename, or an empty one, is answered
    with status 400 and detail "Filename is required."; the world is the
    one the request found, for any implementation of the services, so no
    processing and no vector-store call was made. *)
Theorem upload_requires_filename {World : Type} (E : Env World)
    (file : fastapi.UploadFile) (w : World) :
  truthy_opt_str (fastapi.filename file) = false ->
  documents.upload_document E file w
  = (Raise (HTTPException 400 "Filename is required."), w)
  /\ main.status_code (fst (documents.upload_document E file w)) = 400.
Proof.
  intros Hname.
  assert (H : documents.upload_document E file w
              = (Raise (HTTPException 400 "Filename is required."), w)).
  { unfold documents.upload_document.
    destruct (fastapi.filename file) as [fname|]; [|reflexivity].
    cbn in Hname. rewrite Hname. reflexivity. }
  rewrite H. split; reflexivity.
Qed.

Lemma upload_requires_filename_witness :
  documents.upload_document samples.E0
    {| fastapi.filename := Some ""; fastapi.file := [] |} memory.empty
  = (Raise (HTTPException 400 "Filename is required."), memory.empty)
  /\ main.status_code
       (fst (documents.upload_document samples.E0
               {| fastapi.filename := Some ""; fastapi.file := [] |} memory.empty))
     = 400.
Proof.
  apply (upload_requires_filename samples.E0
           {| fastapi.filename := Some ""; fastapi.file := [] |} memory.empty).
  reflexivity.
Defined.

(** C3. When the lowercased extension of the filename is not one of
    .pdf, .txt, .csv, loading raises [ValueError], the endpoint answers
    with status 400 and that error's message, and the world, the vector
    store included, is unchanged. *)
Theorem upload_unsupported_extension {World : Type} (E : Env World)
    (file : fastapi.UploadFile) (name : string) (w : World)
    (p : document_processor.DocumentProcessor) :
  fastapi.filename file = Some name ->
  truthy_str name = true ->
  str_lower E (Path_suffix E name) ∉ document_processor.SUPPORTED_EXTENSIONS ->
  fst (document_processor.__init__ E None None w) = Ok p ->
  exists msg,
    document_processor.process_upload E p (fastapi.file file) name w
    = (Raise (ValueError msg), w)
    /\ documents.upload_document E file w = (Raise (HTTPException 400 msg), w)
    /\ main.status_code (fst (documents.upload_document E file w)) = 400.
Proof.
  intros Hfile Hname Hext Hinit.
  set (msg := "Unsupported file extension: "
              +:+ str_lower E (Path_suffix E name)
              +:+ "Supported extensions are: " +:+ SUPPORTED_EXTENSIONS_str E).
  exists msg.
  assert (Hp : document_processor.process_upload E p (fastapi.file file) name w
               = (Raise (ValueError msg), w)).
  { unfold document_processor.process_upload, bind.
    rewrite (load_from_upload_unsupported E _ _ _ Hext). reflexivity. }
  assert (Hu : documents.upload_document E file w = (Raise (HTTPException 400 msg), w)).
  { unfold documents.upload_document. rewrite Hfile, Hname. cbn [negb].
    unfold try_except, documents.upload_try, bind at 1.
    pose proof (processor_init_world E None None w) as Hw.
    destruct (document_processor.__init__ E None None w) as [r w1].
    cbn in Hinit, Hw. subst r w1.
    unfold await_plain_list, bind. rewrite Hp. reflexivity. }
  split; [exact Hp|]. split; [exact Hu|]. rewrite Hu. reflexivity.
Qed.

Lemma upload_unsupported_extension_witness :
  exists msg,
    document_processor.process_upload samples.E0
      {| document_processor.chunk_size := 1000;
         document_processor.chunk_overlap := 200 |}
      (fastapi.file (memory.txt "tool.EXE" "MZ")) "tool.EXE" memory.empty
    = (Raise (ValueError msg), memory.empty)
    /\ documents.upload_document samples.E0 (memory.txt "tool.EXE" "MZ") memory.empty
       = (Raise (HTTPException 400 msg), memory.empty)
    /\ main.status_code
         (fst (documents.upload_document samples.E0
                 (memory.txt "tool.EXE" "MZ") memory.empty)) = 400.
Proof.
  apply (upload_unsupported_extension samples.E0 (memory.txt "tool.EXE" "MZ")
           "tool.EXE" memory.empty).
  - reflexivity.
  - reflexivity.
  - vm_compute. intros H. discriminate H.
  - reflexivity.
Defined.

(** C1. An upload of a text file without content: the extension is
    supported, the processor produces no chunk, the handler raises its 400
    inside the [try] block, and the response the client gets is 500. *)
Theorem upload_empty_file_answers_500 :
  fst (document_processor.process_upload samples.E0
         {| document_processor.chunk_size := 1000;
            document_processor.chunk_overlap := 200 |}
         (fastapi.file (memory.txt "empty.txt" "")) "empty.txt" memory.empty)
  = Ok []
  /\ fst (documents.upload_document samples.E0 (memory.txt "empty.txt" "") memory.empty)
     = Raise (HTTPException 500 "Internal server error during document upload.")
  /\ main.status_code
       (fst (documents.upload_document samples.E0
               (memory.txt "empty.txt" "") memory.empty)) = 500.
Proof. repeat split; vm_compute; reflexivity. Qed.

(** C4. An upload of a valid text file: the processor produces one chunk,
    and the handler answers 500 instead of the upload response, because it
    awaits the list that [process_upload] returns. *)
Theorem upload_valid_file_answers_500 :
  fst (document_processor.process_upload samples.E0
         {| document_processor.chunk_size := 1000;
            document_processor.chunk_overlap := 200 |}
         (fastapi.file (memory.txt "notes.txt" "hello world")) "notes.txt"
         memory.empty)
  = Ok [ {| langchain.page_content := "hello world";
            langchain.metadata := [("source", "notes.txt")] |} ]
  /\ fst (documents.upload_document samples.E0
            (memory.txt "notes.txt" "hello world") memory.empty)
     = Raise (HTTPException 500 "Internal server error during document upload.")
  /\ memory.collections
       (snd (documents.upload_document samples.E0
               (memory.txt "notes.txt" "hello world") memory.empty)) = ∅.
Proof. repeat split; vm_compute; reflexivity. Qed.

(* ===================================================================== *)
(** * Properties of the vector-store service                             *)
(* ===================================================================== *)

Section VectorStore.
Context {World : Type} (E : Env World).

Lemma comprehension_uuid4 {A} (xs : list A) (w : World) :
  comprehension (fun _ : A => vector_store.str_uuid4 E) xs w
  = (Ok (fst (uuid4_draws E (length xs) w)), snd (uuid4_draws E (length xs) w)).
Proof.
  revert w. induction xs as [|x xs IH]; intros w; [reflexivity|].
  cbn [comprehension length uuid4_draws].
  unfold bind at 1. unfold vector_store.str_uuid4 at 1.
  destruct (uuid4 E w) as [s w1].
  unfold bind at 1. rewrite IH.
  destruct (uuid4_draws E (length xs) w1) as [l w2]. reflexivity.
Qed.

Lemma uuid4_draws_length (n : nat) (w : World) :
  length (fst (uuid4_draws E n w)) = n.
Proof.
  revert w. induction n as [|n IH]; intros w; [reflexivity|].
  cbn [uuid4_draws]. destruct (uuid4 E w) as [s w1].
  specialize (IH w1). destruct (uuid4_draws E n w1) as [l w2].
  cbn in *. congruence.
Qed.

(** A service built for the default name targets the configured
    collection. *)
Lemma init_default_name (w : World) (self : vector_store.VectorStoreService) (w' : World) :
  vector_store.__init__ E None w = (Ok self, w') ->
  vector_store.collection_name self = config.COLLECTION_NAME (get_settings E).
Proof.
  unfold vector_store.__init__, bind, ret. cbn [or_str].
  destruct (vector_store._ensure_collection E _ w) as [[[]|e] w1]; [|discriminate].
  destruct (QdrantVectorStore E _ w1) as [[[]|e] w2]; [|discriminate].
  intros H. injection H as <- _. reflexivity.
Qed.

End VectorStore.

(** The body of [add_documents], had the method been made: on an empty
    list it returns the empty list and leaves the world as it was; on a
    non-empty list it draws one fresh [uuid4] string per document, in
    order, passes the documents with exactly those ids to the underlying
    store, and returns them when the store accepts them. *)
Lemma add_documents_body_ids {World : Type} (E : Env World)
    (self : vector_store.VectorStoreService)
    (documents : list Document) (w : World) :
  let ids := fst (uuid4_draws E (length documents) w) in
  let w1 := snd (uuid4_draws E (length documents) w) in
  length ids = length documents
  /\ vector_store.add_documents_body E self documents w
     = match documents with
       | [] => (Ok [], w)
       | _ :: _ =>
           match QdrantVectorStore_add_documents E
                   (vector_store.collection_name self) documents ids w1 with
           | (Ok _, w2) => (Ok ids, w2)
           | (Raise e, w2) => (Raise e, w2)
           end
       end.
Proof.
  cbv zeta. split; [apply uuid4_draws_length|].
  destruct documents as [|d ds]; [reflexivity|].
  unfold vector_store.add_documents_body. cbn [truthy_list negb].
  unfold bind at 1. rewrite comprehension_uuid4.
  unfold bind, ret.
  destruct (QdrantVectorStore_add_documents E _ _ _ _) as [[r|e] w2]; reflexivity.
Qed.

(** C10. The statement that defines [add_documents] raises [NameError]:
    its default [ids=ids] reads a name that nothing binds when the class
    body runs.  No method is made, so a call of [add_documents], with an
    empty or a non-empty list, returns no id list: it ends in that
    [NameError], with no id drawn and nothing passed to the store. *)
Theorem add_documents_is_not_defined {World : Type} (E : Env World)
    (self : vector_store.VectorStoreService)
    (documents : list Document) (w : World) :
  vector_store.add_documents_def E
  = Raise (NameError "name 'ids' is not defined")
  /\ vector_store.add_documents E self documents w
     = (Raise (NameError "name 'ids' is not defined"), w).
Proof. split; reflexivity. Qed.

(** On the in-memory server the body, run on two documents, draws two
    distinct ids and stores them with the documents in the collection. *)
Example add_documents_body_two :
  vector_store.add_documents_body samples.E0
    {| vector_store.collection_name := "rag_documents" |}
    [samples.doc "a"; samples.doc "b"] samples.empty_collection
  = (Ok ["uuid-0"; "uuid-1"],
     memory.log "add_documents"
       (memory.with_collections
          {[ "rag_documents" := [("uuid-0", samples.doc "a"); ("uuid-1", samples.doc "b")] ]}
          (memory.tick (memory.tick samples.empty_collection)))).
Proof. vm_compute. reflexivity. Qed.

(* ===================================================================== *)
(** * Properties of the collection-info endpoint                         *)
(* ===================================================================== *)

(** No status of a collection is spelt "not_found". *)
Lemma status_value_not_found (s : qdrant_client.CollectionStatus) :
  qdrant_client.value s <> "not_found".
Proof. destruct s; discriminate. Qed.




(** The three answers on concrete servers: the created collection's
    status on the in-memory server, "not_found" on a server that loses
    the collection again, and 500 on a server that cannot be reached. *)
Example info_three_answers :
  fst (documents.get_collection_info samples.E0 memory.empty)
  = Ok {| schemas.collection_name := "rag_documents";
          schemas.total_documents := 0;
          schemas.status := "green" |}
  /\ fst (documents.get_collection_info samples.E_lost memory.empty)
     = Ok {| schemas.collection_name := "rag_documents";
             schemas.total_documents := 0;
             schemas.status := "not_found" |}
  /\ fst (documents.get_collection_info samples.E_down memory.empty)
     = Raise (HTTPException 500
                "Error getting collection info: connection refused").
Proof. repeat split; vm_compute; reflexivity. Qed.

(* ===================================================================== *)
(** * Properties of the document processor                               *)
(* ===================================================================== *)





(** With the defaults in force a negative chunk size makes no instance:
    the splitter's constructor raises [ValueError]. *)
Example processor_negative_size_rejected :
  fst (document_processor.__init__ samples.E0 (Some (-5)) None memory.empty)
  = Raise (ValueError "chunk_size must be > 0").
Proof. vm_compute. reflexivity. Qed.

(* ===================================================================== *)
(** * Properties of the chain                                            *)
(* ===================================================================== *)

(** The code's source entry is the one the interface describes. *)
Lemma format_source_entry (doc : Document) :
  rag_chain.format_source doc = source_entry doc.
Proof.
  unfold rag_chain.format_source, source_entry, snippet.
  destruct (Z.ltb_spec 500 (Z.of_nat (String.length (langchain.page_content doc))));
    destruct (Nat.leb_spec (String.length (langchain.page_content doc)) 500);
    try reflexivity; lia.
Qed.

Lemma map_format_source (docs : list Document) :
  map rag_chain.format_source docs = map source_entry docs.
Proof. apply map_ext. exact format_source_entry. Qed.

(** An instance made by [RAGChain()] has no [chain]: every query on it
    raises [AttributeError]. *)
Lemma query_on_new_instance {World : Type} (question : string) (w : World) :
  rag_chain.query question (rag_chain.RAGChain_new, w)
  = (Raise (AttributeError "'RAGChain' object has no attribute 'chain'"),
     (rag_chain.RAGChain_new, w)).
Proof. reflexivity. Qed.

(** Calling [__init] on an instance never assigns [chain]. *)
Lemma init_leaves_chain_unset {World float : Type}
    (E : Env World) (C : ChainEnv World float)
    (service : option vector_store.VectorStoreService)
    (self : rag_chain.RAGChain) (w : World) :
  (exists e, fst (rag_chain.__init E C service (self, w)) = Raise e)
  /\ rag_chain.chain (fst (snd (rag_chain.__init E C service (self, w))))
     = rag_chain.chain self.
Proof.
  unfold rag_chain.__init, bind, rag_chain.setattr, raise, ret, rag_chain.world.
  destruct service as [v|]; cbn.
  - split; [eauto | reflexivity].
  - destruct (vector_store.__init__ E None w) as [[v|e] w1]; cbn;
      (split; [eauto | reflexivity]).
Qed.

(** C7, as stated, fails.  On an empty collection, an instance made by
    [RAGChain()] raises [AttributeError]; an instance that holds the
    pipeline returns what the chat model says, here "42". *)
Lemma query_empty_collection_counterexample :
  fst (retriever_invoke samples.C0 samples.r0
         (InDict [("question", "What is the capital of France?")])
         samples.empty_collection) = Ok []
  /\ fst (rag_chain.query "What is the capital of France?"
            (rag_chain.RAGChain_new, samples.empty_collection))
     = Raise (AttributeError "'RAGChain' object has no attribute 'chain'")
  /\ fst (rag_chain.query "What is the capital of France?"
            (samples.chain0, samples.empty_collection)) = Ok "42"
  /\ fst (rag_chain.query "What is the capital of France?"
            (samples.chain0, samples.empty_collection))
     <> Ok rag_chain.FALLBACK_PHRASE.
Proof.
  split; [vm_compute; reflexivity|]. split; [reflexivity|].
  assert (H : fst (rag_chain.query "What is the capital of France?"
                     (samples.chain0, samples.empty_collection)) = Ok "42")
    by (vm_compute; reflexivity).
  split; [exact H|]. rewrite H. discriminate.
Qed.

(** C7, amended. On an instance whose [chain] is the pipeline that
    [__init] composes, a query for which retrieval returns no document
    sends the chat model the template with an empty context.  That prompt
    carries the instruction to say the fallback phrase, in quotes, and the
    query returns the model's reply to it, whatever it is. *)
Theorem query_empty_collection {World float : Type} (C : ChainEnv World float)
    (self : rag_chain.RAGChain) (r : Retriever) (question : string)
    (w w1 : World) :
  let input := InDict [("question", question)] in
  rag_chain.chain self = Some (rag_chain.rag_pipeline C r) ->
  retriever_invoke C r input w = (Ok [], w1) ->
  exists pre post,
    let prompt :=
      pre +:+ rag_chain.dquote +:+ rag_chain.FALLBACK_PHRASE
          +:+ rag_chain.dquote +:+ post in
    rag_chain.format_template rag_chain.RAG_PROMPT_TEMPLATE
      [("context", ""); ("question", input_str C input)] = Ok prompt
    /\ rag_chain.query question (self, w)
       = (fst (llm_invoke C prompt w1), (self, snd (llm_invoke C prompt w1))).
Proof.
  intros input Hchain Hdocs.
  exists ("You are a helpful assistant. Answer the question based on the provided context."
          +:+ rag_chain.newline +:+ rag_chain.newline
          +:+ "If you cannot answer the question based on the context, say ").
  exists (rag_chain.newline +:+ rag_chain.newline
          +:+ "Do not make up information. Only use the context provided."
          +:+ rag_chain.newline +:+ rag_chain.newline
          +:+ "Context:" +:+ rag_chain.newline
          +:+ rag_chain.newline +:+ rag_chain.newline +:+ "Question: "
          +:+ input_str C input
          +:+ rag_chain.newline +:+ rag_chain.newline +:+ "Answer:").
  cbv zeta.
  assert (Hfmt : rag_chain.format_template rag_chain.RAG_PROMPT_TEMPLATE
                   [("context", ""); ("question", input_str C input)]
                 = Ok (("You are a helpful assistant. Answer the question based on the provided context."
                        +:+ rag_chain.newline +:+ rag_chain.newline
                        +:+ "If you cannot answer the question based on the context, say ")
                       +:+ rag_chain.dquote +:+ rag_chain.FALLBACK_PHRASE
                       +:+ rag_chain.dquote
                       +:+ (rag_chain.newline +:+ rag_chain.newline
                            +:+ "Do not make up information. Only use the context provided."
                            +:+ rag_chain.newline +:+ rag_chain.newline
                            +:+ "Context:" +:+ rag_chain.newline
                            +:+ rag_chain.newline +:+ rag_chain.newline +:+ "Question: "
                            +:+ input_str C input
                            +:+ rag_chain.newline +:+ rag_chain.newline +:+ "Answer:"))).
  { vm_compute. reflexivity. }
  split; [exact Hfmt|].
  unfold rag_chain.query, try_except, rag_chain.getattr.
  unfold bind at 1. cbn [fst snd]. rewrite Hchain.
  unfold bind at 1. unfold rag_chain.world. cbn [fst snd].
  unfold rag_chain.rag_pipeline. unfold bind at 1. fold input. rewrite Hdocs.
  unfold bind at 1. unfold lift. cbn [rag_chain.format_docs map String.concat].
  rewrite Hfmt.
  destruct (llm_invoke C _ w1) as [[a|e] w2]; reflexivity.
Qed.

Lemma query_empty_collection_witness :
  exists pre post,
    let prompt :=
      pre +:+ rag_chain.dquote +:+ rag_chain.FALLBACK_PHRASE
          +:+ rag_chain.dquote +:+ post in
    rag_chain.format_template rag_chain.RAG_PROMPT_TEMPLATE
      [("context", "");
       ("question", input_str samples.C0 (InDict [("question", "Who?")]))]
    = Ok prompt
    /\ rag_chain.query "Who?" (samples.chain0, samples.empty_collection)
       = (fst (llm_invoke samples.C0 prompt (memory.log "search" samples.empty_collection)),
          (samples.chain0,
           snd (llm_invoke samples.C0 prompt (memory.log "search" samples.empty_collection)))).
Proof.
  apply (query_empty_collection samples.C0 samples.chain0 samples.r0 "Who?"
           samples.empty_collection (memory.log "search" samples.empty_collection)).
  - reflexivity.
  - vm_compute. reflexivity.
Defined.

(** The bodies of the two methods, on an instance that holds a chain and
    a retriever: when the chain answers and the retriever returns
    documents, they return the answer and one source entry per retrieved
    document, in order, with the content cut as described and the
    document's metadata. *)
Lemma query_with_sources_entries {World float : Type} (C : ChainEnv World float)
    (self : rag_chain.RAGChain) (c : rag_chain.Runnable) (r : Retriever)
    (question : string) (w : World) :
  rag_chain.chain self = Some c ->
  rag_chain.retriever self = Some r ->
  (forall a w1 docs w2,
      c (InDict [("question", question)]) w = (Ok a, w1) ->
      retriever_invoke C r (InStr question) w1 = (Ok docs, w2) ->
      rag_chain.query_with_sources C question (self, w)
      = (Ok {| rag_chain.answer := a;
               rag_chain.sources := map source_entry docs |}, (self, w2))
      /\ length (map source_entry docs) = length docs)
  /\ (forall a w1 docs w2,
        c (InStr question) w = (Ok a, w1) ->
        retriever_invoke C r (InStr question) w1 = (Ok docs, w2) ->
        rag_chain.aquery_with_sources C question (self, w)
        = (Ok {| rag_chain.answer := a;
                 rag_chain.sources := map source_entry docs |}, (self, w2))
        /\ length (map source_entry docs) = length docs).
Proof.
  intros Hchain Hretr. split; intros a w1 docs w2 Hc Hr;
    (split; [|apply length_map]).
  - unfold rag_chain.query_with_sources, try_except, rag_chain.getattr.
    unfold bind at 1. cbn [fst snd]. rewrite Hchain.
    unfold bind at 1. unfold rag_chain.world at 1. cbn [fst snd]. rewrite Hc.
    unfold bind at 1. cbn [fst snd]. rewrite Hretr.
    unfold bind at 1. unfold rag_chain.world. cbn [fst snd]. rewrite Hr.
    unfold ret. rewrite map_format_source. reflexivity.
  - unfold rag_chain.aquery_with_sources, try_except, rag_chain.getattr,
      await_coroutine.
    unfold bind at 1. cbn [fst snd]. rewrite Hchain.
    unfold bind at 1. unfold rag_chain.world at 1. cbn [fst snd]. rewrite Hc.
    unfold bind at 1. cbn [fst snd]. rewrite Hretr.
    unfold bind at 1. unfold rag_chain.world. cbn [fst snd]. rewrite Hr.
    unfold ret. rewrite map_format_source. reflexivity.
Qed.

(** C8. On the instances the code builds, the query with sources returns
    no dictionary.  [RAGChain()] runs no initialiser, because the class
    spells it [__init], and a call of [__init] stops before it assigns
    [chain]; on either instance the synchronous and the asynchronous
    method raise [AttributeError], although retrieval on the same server
    would return the stored document. *)
Theorem query_with_sources_raises_on_built_instances :
  let question := "Where is Paris?" in
  let built := rag_chain.RAGChain_new in
  let initialised :=
    fst (snd (rag_chain.__init samples.E0 samples.C0 None
                (rag_chain.RAGChain_new, samples.one_document))) in
  let missing :=
    Raise (AttributeError "'RAGChain' object has no attribute 'chain'") in
  fst (retriever_invoke samples.C0 samples.r0 (InStr question) samples.one_document)
  = Ok [samples.doc "Paris is in France."]
  /\ fst (rag_chain.query_with_sources samples.C0 question
            (built, samples.one_document)) = missing
  /\ fst (rag_chain.aquery_with_sources samples.C0 question
            (built, samples.one_document)) = missing
  /\ fst (rag_chain.query_with_sources samples.C0 question
            (initialised, samples.one_document)) = missing
  /\ fst (rag_chain.aquery_with_sources samples.C0 question
            (initialised, samples.one_document)) = missing.
Proof. cbv zeta. repeat split; vm_compute; reflexivity. Qed.

(** On the in-memory services the query returns the stored document as
    its single source; a text of 501 characters is cut to 500 and "...". *)
Example query_with_sources_one_document :
  fst (rag_chain.query_with_sources samples.C0 "Where is Paris?"
         (samples.chain0, samples.one_document))
  = Ok {| rag_chain.answer := "42";
          rag_chain.sources :=
            [ {| rag_chain.content := "Paris is in France.";
                 rag_chain.metadata := [("source", "a.txt")] |} ] |}.
Proof. vm_compute. reflexivity. Qed.

Example format_source_long :
  String.length
    (rag_chain.content
       (rag_chain.format_source
          (samples.doc (string_of_list_ascii (repeat "a"%char 501)))))
  = 503%nat.
Proof. vm_compute. reflexivity. Qed.

(* ===================================================================== *)
(** * Properties of the evaluated query                                  *)
(* ===================================================================== *)

(** [aevaluate] turns an exception of its [try] block into null scores
    with the message. *)
Lemma aevaluate_reports_failure {World float : Type} (C : ChainEnv World float)
    (self : ragas_evaluator.RAGASEvaluator) (question answer : string)
    (contexts : list string) (w w1 w2 : World) (t : float) (e : exn) :
  ragas_evaluator.now C w = (Ok t, w1) ->
  ragas_evaluator.aevaluate_try C self t question answer contexts w1 = (Raise e, w2) ->
  ragas_evaluator.aevaluate C self question answer contexts w
  = (Ok (null_scores e), w2).
Proof.
  intros Hnow Htry. unfold ragas_evaluator.aevaluate.
  unfold bind. rewrite Hnow. unfold try_except. rewrite Htry. reflexivity.
Qed.

(** C5. When the answer with its sources has been produced and the
    evaluation step fails with an exception, the request still returns:
    answer, sources, and an evaluation part whose three scores are null
    and whose error is the exception's message. *)
Theorem evaluation_failure_is_reported {World float : Type}
    (E : Env World) (C : ChainEnv World float)
    (question : string) (include_sources : bool)
    (ow ow1 ow2 : rag_chain.Obj) (res : rag_chain.answer_with_sources) (e : exn) :
  rag_chain.aquery_with_sources C question ow = (Ok res, ow1) ->
  evaluation_fails E C question (rag_chain.answer res)
    (map rag_chain.content (rag_chain.sources res)) ow1 e ow2 ->
  rag_chain.aquery_with_evaluation E C question include_sources ow
  = (Ok {| rag_chain.ev_answer := rag_chain.answer res;
           rag_chain.ev_sources := rag_chain.sources res;
           rag_chain.evaluation :=
             {| ragas_evaluator.faithfulness := None;
                ragas_evaluator.answer_relevancy := None;
                ragas_evaluator.evaluation_time_ms := None;
                ragas_evaluator.error := Some (exn_str e) |} |}, ow2).
Proof.
  intros Hsrc Hfail.
  unfold rag_chain.aquery_with_evaluation, try_except at 1, await_coroutine.
  unfold bind at 1. rewrite Hsrc.
  unfold bind at 1. unfold try_except, rag_chain.evaluation_step, await_coroutine.
  unfold bind at 1.
  destruct Hfail as [Hev | (ev & o & w1 & t & w2 & w3 & Hev & Hnow & Htry & ->)].
  - rewrite Hev. reflexivity.
  - rewrite Hev. unfold rag_chain.world. cbn [fst snd].
    rewrite (aevaluate_reports_failure C ev _ _ _ w1 w2 w3 t e Hnow Htry).
    reflexivity.
Qed.

Lemma evaluation_failure_is_reported_witness :
  rag_chain.aquery_with_evaluation samples.E0 samples.C0 "Where is Paris?" true
    (samples.chain0, samples.one_document)
  = (Ok {| rag_chain.ev_answer := "42";
           rag_chain.ev_sources := [source_entry (samples.doc "Paris is in France.")];
           rag_chain.evaluation :=
             {| ragas_evaluator.faithfulness := None;
                ragas_evaluator.answer_relevancy := None;
                ragas_evaluator.evaluation_time_ms := None;
                ragas_evaluator.error := Some "rate limit exceeded" |} |},
     snd (rag_chain.aquery_with_evaluation samples.E0 samples.C0 "Where is Paris?" true
            (samples.chain0, samples.one_document))).
Proof.
  apply (evaluation_failure_is_reported samples.E0 samples.C0 "Where is Paris?" true
           (samples.chain0, samples.one_document)
           (snd (rag_chain.aquery_with_sources samples.C0 "Where is Paris?"
                   (samples.chain0, samples.one_document)))
           _
           {| rag_chain.answer := "42";
              rag_chain.sources := [source_entry (samples.doc "Paris is in France.")] |}
           (OtherException "rate limit exceeded")).
  - vm_compute. reflexivity.
  - right. vm_compute. do 6 eexists. repeat split; reflexivity.
Defined.

(* ===================================================================== *)
(** * Further properties of the document processor                       *)
(* ===================================================================== *)

Lemma dict_get_set_eq (d : Metadata) (k v : string) :
  dict_get (dict_set d k v) k = Some v.
Proof.
  induction d as [|[k' v'] d IH]; cbn.
  - rewrite String.eqb_refl. reflexivity.
  - destruct (String.eqb k' k) eqn:Hk; cbn.
    + rewrite String.eqb_refl. reflexivity.
    + rewrite Hk. exact IH.
Qed.

Lemma dict_get_set_ne (d : Metadata) (k k' v : string) :
  k' <> k -> dict_get (dict_set d k v) k' = dict_get d k'.
Proof.
  intros Hne. induction d as [|[k0 v0] d IH]; cbn.
  - destruct (String.eqb_spec k k'); [congruence | reflexivity].
  - destruct (String.eqb_spec k0 k) as [->|Hk0]; cbn.
    + destruct (String.eqb_spec k k'); [congruence | reflexivity].
    + destruct (String.eqb_spec k0 k'); [reflexivity | exact IH].
Qed.

(** X1. [load_file] and [process_file] on a path whose lowercased suffix
    is not supported raise [ValueError] with the message that names the
    suffix, and make no library call: the world is unchanged. *)
Theorem load_file_unsupported {World : Type} (E : Env World)
    (self : document_processor.DocumentProcessor) (file_path : string) (w : World) :
  str_lower E (Path_suffix E file_path) ∉ document_processor.SUPPORTED_EXTENSIONS ->
  let msg := "Unsupported file extension: "
             +:+ str_lower E (Path_suffix E file_path)
             +:+ ". Supported extensions are: " +:+ SUPPORTED_EXTENSIONS_str E in
  document_processor.load_file E file_path w = (Raise (ValueError msg), w)
  /\ document_processor.process_file E self file_path w = (Raise (ValueError msg), w).
Proof.
  intros Hext msg.
  assert (H : document_processor.load_file E file_path w = (Raise (ValueError msg), w)).
  { unfold document_processor.load_file.
    rewrite bool_decide_eq_false_2 by exact Hext. reflexivity. }
  split; [exact H|].
  unfold document_processor.process_file, bind. rewrite H. reflexivity.
Qed.

Lemma load_file_unsupported_witness :
  let msg := "Unsupported file extension: .docx. Supported extensions are: {'.pdf', '.txt', '.csv'}" in
  document_processor.load_file samples.E0 "/data/report.DOCX" memory.empty
  = (Raise (ValueError msg), memory.empty)
  /\ document_processor.process_file samples.E0 samples.processor0
       "/data/report.DOCX" memory.empty
     = (Raise (ValueError msg), memory.empty).
Proof.
  apply (load_file_unsupported samples.E0 samples.processor0
           "/data/report.DOCX" memory.empty).
  vm_compute. intros H. discriminate H.
Defined.

(** X2. On a supported extension [load_file] dispatches on the lowercased
    suffix: a .pdf path goes to the PDF loader, a .txt path to the text
    loader, a .csv path to the CSV loader, each called with the path in
    its normal form, [str(Path(file_path))].  The table of loaders covers
    every supported extension, so the lookup itself never raises
    [KeyError]. *)
Theorem load_file_dispatch {World : Type} (E : Env World)
    (file_path : string) (w : World) :
  str_lower E (Path_suffix E file_path) ∈ document_processor.SUPPORTED_EXTENSIONS ->
  document_processor.load_file E file_path w
  = (if String.eqb (str_lower E (Path_suffix E file_path)) ".pdf"
     then PyPDFLoader_load E
     else if String.eqb (str_lower E (Path_suffix E file_path)) ".txt"
          then TextLoader_load E
          else CSVLoader_load E) (Path_str E file_path) w.
Proof.
  intros Hext. unfold document_processor.load_file.
  rewrite bool_decide_eq_true_2 by exact Hext. cbn [negb].
  assert (Hcases : str_lower E (Path_suffix E file_path) = ".pdf"
                   \/ str_lower E (Path_suffix E file_path) = ".txt"
                   \/ str_lower E (Path_suffix E file_path) = ".csv").
  { unfold document_processor.SUPPORTED_EXTENSIONS in Hext.
    rewrite !elem_of_union, !elem_of_singleton in Hext. tauto. }
  destruct Hcases as [-> | [-> | ->]]; reflexivity.
Qed.

Lemma load_file_dispatch_witness :
  document_processor.load_file samples.E0 "./data//a.txt" samples.one_file
  = (if String.eqb (memory.lower (memory.suffix "./data//a.txt")) ".pdf"
     then memory.load
     else if String.eqb (memory.lower (memory.suffix "./data//a.txt")) ".txt"
          then memory.load
          else memory.load) (memory.normal "./data//a.txt") samples.one_file.
Proof.
  apply (load_file_dispatch samples.E0 "./data//a.txt" samples.one_file).
  vm_compute. set_solver.
Defined.

(** The text loader is handed "data/a.txt" for the path "./data//a.txt". *)
Example load_file_normal_path :
  memory.normal "./data//a.txt" = "data/a.txt"
  /\ memory.normal "/tmp/tmp0.txt" = "/tmp/tmp0.txt"
  /\ memory.normal "" = ".".
Proof. vm_compute. repeat split; reflexivity. Qed.

(** X3. [load_from_upload] removes its temporary file on both exits.
    Once the file is written, whatever [load_file] does on it, returning
    or raising, [unlink] runs next on that path; the loader's outcome is
    kept, with the source stamped on returned documents, unless [unlink]
    raises, in which case its exception is the outcome. *)
Theorem load_from_upload_cleanup {World : Type} (E : Env World)
    (data : list Byte.byte) (file_name temp_path : string)
    (w w1 w2 : World) (r : result (list Document)) :
  str_lower E (Path_suffix E file_name) ∈ document_processor.SUPPORTED_EXTENSIONS ->
  NamedTemporaryFile_write E (str_lower E (Path_suffix E file_name)) data w
  = (Ok temp_path, w1) ->
  document_processor.load_file E temp_path w1 = (r, w2) ->
  document_processor.load_from_upload E data file_name w
  = match Path_unlink E temp_path w2 with
    | (Ok _, w3) =>
        (match r with
         | Ok documents => Ok (map (document_processor.set_source file_name) documents)
         | Raise e => Raise e
         end, w3)
    | (Raise e, w3) => (Raise e, w3)
    end.
Proof.
  intros Hext Htmp Hload.
  unfold document_processor.load_from_upload.
  rewrite bool_decide_eq_true_2 by exact Hext. cbn [negb].
  unfold bind at 1. rewrite Htmp.
  unfold try_finally, bind, ret. rewrite Hload.
  destruct r as [docs|e]; destruct (Path_unlink E temp_path w2) as [[[]|e'] w3];
    reflexivity.
Qed.

Lemma load_from_upload_cleanup_witness :
  document_processor.load_from_upload samples.E0 (list_byte_of_string "hello")
    "notes.txt" memory.empty
  = match memory.unlink "/tmp/tmp0.txt"
            (snd (document_processor.load_file samples.E0 "/tmp/tmp0.txt"
                    (snd (memory.write_temp ".txt" (list_byte_of_string "hello")
                            memory.empty)))) with
    | (Ok _, w3) =>
        (match fst (document_processor.load_file samples.E0 "/tmp/tmp0.txt"
                      (snd (memory.write_temp ".txt" (list_byte_of_string "hello")
                              memory.empty))) with
         | Ok documents => Ok (map (document_processor.set_source "notes.txt") documents)
         | Raise e => Raise e
         end, w3)
    | (Raise e, w3) => (Raise e, w3)
    end.
Proof.
  apply (load_from_upload_cleanup samples.E0 (list_byte_of_string "hello")
           "notes.txt" "/tmp/tmp0.txt" memory.empty
           (snd (memory.write_temp ".txt" (list_byte_of_string "hello") memory.empty))).
  - vm_compute. set_solver.
  - reflexivity.
  - apply surjective_pairing.
Defined.

(** X4. Every document that [load_from_upload] returns is a document the
    loader produced from the temporary file, with the same text, whose
    metadata entry "source" is the uploaded file's name; the other
    metadata entries keep their values. *)
Theorem load_from_upload_stamps_source {World : Type} (E : Env World)
    (data : list Byte.byte) (file_name : string) (w w' : World)
    (docs : list Document) :
  document_processor.load_from_upload E data file_name w = (Ok docs, w') ->
  exists temp_path w1 loaded w2,
    NamedTemporaryFile_write E (str_lower E (Path_suffix E file_name)) data w
    = (Ok temp_path, w1)
    /\ document_processor.load_file E temp_path w1 = (Ok loaded, w2)
    /\ Forall2 (fun d l =>
                  langchain.page_content d = langchain.page_content l
                  /\ dict_get (langchain.metadata d) "source" = Some file_name
                  /\ forall k, k <> "source" ->
                       dict_get (langchain.metadata d) k
                       = dict_get (langchain.metadata l) k)
               docs loaded.
Proof.
  unfold document_processor.load_from_upload.
  destruct (bool_decide _); cbn [negb]; [|discriminate].
  unfold bind at 1.
  destruct (NamedTemporaryFile_write E _ data w) as [[temp_path|e] w1] eqn:Htmp;
    [|discriminate].
  unfold try_finally, bind, ret.
  destruct (document_processor.load_file E temp_path w1) as [[loaded|e] w2] eqn:Hload;
    destruct (Path_unlink E temp_path w2) as [[[]|e'] w3]; try discriminate.
  intros H. injection H as <- _.
  exists temp_path, w1, loaded, w2. split; [reflexivity|]. split; [exact Hload|].
  clear Hload. induction loaded as [|l ls IH]; cbn; constructor; [|exact IH].
  split; [reflexivity|]. split; [apply dict_get_set_eq|].
  intros k Hk. apply dict_get_set_ne. exact Hk.
Qed.

Lemma load_from_upload_stamps_source_witness :
  exists temp_path w1 loaded w2,
    memory.write_temp (memory.lower (memory.suffix "notes.txt"))
      (list_byte_of_string "hello") memory.empty = (Ok temp_path, w1)
    /\ document_processor.load_file samples.E0 temp_path w1 = (Ok loaded, w2)
    /\ Forall2 (fun d l =>
                  langchain.page_content d = langchain.page_content l
                  /\ dict_get (langchain.metadata d) "source" = Some "notes.txt"
                  /\ forall k, k <> "source" ->
                       dict_get (langchain.metadata d) k
                       = dict_get (langchain.metadata l) k)
               [ {| langchain.page_content := "hello";
                    langchain.metadata := [("source", "notes.txt")] |} ]
               loaded.
Proof.
  apply (load_from_upload_stamps_source samples.E0 (list_byte_of_string "hello")
           "notes.txt" memory.empty
           (snd (document_processor.load_from_upload samples.E0
                   (list_byte_of_string "hello") "notes.txt" memory.empty))).
  vm_compute. reflexivity.
Defined.

(* ===================================================================== *)
(** * Further properties of the document routes                          *)
(* ===================================================================== *)

(** X5. Whatever the request and the services do, [upload_document] ends
    in an [HTTPException]: status 400 with a message, or status 500 with
    the fixed detail.  No other exception leaves the handler. *)
Theorem upload_status_400_or_500 {World : Type} (E : Env World)
    (file : fastapi.UploadFile) (w : World) :
  (exists detail,
      fst (documents.upload_document E file w) = Raise (HTTPException 400 detail))
  \/ fst (documents.upload_document E file w)
     = Raise (HTTPException 500 "Internal server error during document upload.").
Proof.
  unfold documents.upload_document.
  destruct (fastapi.filename file) as [name|]; [|left; cbn; eauto].
  destruct (negb (truthy_str name)); [left; cbn; eauto|].
  unfold try_except.
  destruct (upload_try_raises E file name w) as [e He].
  destruct (documents.upload_try E file name w) as [r w1]. cbn in He. subst r.
  unfold documents.upload_except, raise.
  destruct (is_ValueError e); cbn; [left; eauto | right; reflexivity].
Qed.

(** X6. The effects of an upload are those of constructing the processor
    and of [process_upload], and nothing more: the handler leaves the
    world that [process_upload] leaves, for every implementation of the
    services, so neither the vector-store service is constructed nor
    [add_documents] called. *)
Theorem upload_effects_are_processing {World : Type} (E : Env World)
    (file : fastapi.UploadFile) (name : string) (w w1 : World)
    (p : document_processor.DocumentProcessor) :
  fastapi.filename file = Some name ->
  truthy_str name = true ->
  document_processor.__init__ E None None w = (Ok p, w1) ->
  snd (documents.upload_document E file w)
  = snd (document_processor.process_upload E p (fastapi.file file) name w1).
Proof.
  intros Hfile Hname Hinit.
  unfold documents.upload_document. rewrite Hfile, Hname. cbn [negb].
  unfold try_except, documents.upload_try. unfold bind at 1. rewrite Hinit.
  unfold bind at 1. unfold await_plain_list, bind, raise.
  destruct (document_processor.process_upload E p (fastapi.file file) name w1)
    as [[chunks|e] w2]; cbn [snd].
  - reflexivity.
  - unfold documents.upload_except, raise. destruct (is_ValueError e); reflexivity.
Qed.

Lemma upload_effects_are_processing_witness :
  snd (documents.upload_document samples.E0
         (memory.txt "notes.txt" "hello world") memory.empty)
  = snd (document_processor.process_upload samples.E0 samples.processor0
           (fastapi.file (memory.txt "notes.txt" "hello world")) "notes.txt"
           memory.empty).
Proof.
  apply (upload_effects_are_processing samples.E0
           (memory.txt "notes.txt" "hello world") "notes.txt"
           memory.empty memory.empty samples.processor0).
  - reflexivity.
  - reflexivity.
  - reflexivity.
Defined.

(** X7. The info and the delete routes answer with what the service
    does.  When constructing the service or the call on it raises an
    exception, the route raises an [HTTPException] with status 500 whose
    detail is the route's prefix followed by the message of that very
    exception, and leaves the world the service left; when the service
    returns, the info route returns its name, points count and status,
    and the delete route its fixed message. *)
Theorem collection_routes_report_500 {World : Type} (E : Env World) (w : World) :
  documents.get_collection_info E w
  = match (let! vector_store := vector_store.__init__ E None in
           vector_store.get_collection_info E vector_store) w with
    | (Ok info, w1) =>
        (Ok {| schemas.collection_name := vector_store.name info;
               schemas.total_documents := vector_store.points_count info;
               schemas.status := vector_store.status info |}, w1)
    | (Raise e, w1) =>
        (Raise (HTTPException 500
                  ("Error getting collection info: " +:+ exn_str e)), w1)
    end
  /\ documents.delete_collection E w
     = match (let! vector_store := vector_store.__init__ E None in
              vector_store.delete_collection E vector_store) w with
       | (Ok _, w1) => (Ok "Collection deleted successfully", w1)
       | (Raise e, w1) =>
           (Raise (HTTPException 500
                     ("Error deleting collection: " +:+ exn_str e)), w1)
       end.
Proof.
  unfold documents.get_collection_info, documents.delete_collection,
    try_except, bind, ret, raise.
  split.
  - destruct (vector_store.__init__ E None w) as [[vs|e] w1]; [|reflexivity].
    destruct (vector_store.get_collection_info E vs w1) as [[info|e] w2];
      reflexivity.
  - destruct (vector_store.__init__ E None w) as [[vs|e] w1]; [|reflexivity].
    destruct (vector_store.delete_collection E vs w1) as [[[]|e] w2];
      reflexivity.
Qed.

(* ===================================================================== *)
(** * Further properties of the vector-store service                     *)
(* ===================================================================== *)





(** X10. The name of a constructed service is never empty when the
    configured name is not: an absent or empty argument selects the
    configured name, any other argument is the name. *)
Theorem init_collection_name {World : Type} (E : Env World)
    (collection_name : option string) (w w' : World)
    (self : vector_store.VectorStoreService) :
  vector_store.__init__ E collection_name w = (Ok self, w') ->
  config.COLLECTION_NAME (get_settings E) <> "" ->
  vector_store.collection_name self <> ""
  /\ vector_store.collection_name self
     = match collection_name with
       | Some (String a s) => String a s
       | _ => config.COLLECTION_NAME (get_settings E)
       end.
Proof.
  unfold vector_store.__init__, bind, ret.
  destruct (vector_store._ensure_collection E _ w) as [[[]|e] w1]; [|discriminate].
  destruct (QdrantVectorStore E _ w1) as [[[]|e] w2]; [|discriminate].
  intros H Hdefault. injection H as <- _. cbn [vector_store.collection_name].
  destruct collection_name as [[|a s]|]; cbn; split; try reflexivity;
    try exact Hdefault; discriminate.
Qed.

Lemma init_collection_name_witness :
  vector_store.collection_name samples.service0 <> ""
  /\ vector_store.collection_name samples.service0
     = match Some "" with
       | Some (String a s) => String a s
       | _ => config.COLLECTION_NAME (get_settings samples.E0)
       end.
Proof.
  apply (init_collection_name samples.E0 (Some "") samples.one_document
           (memory.log "get_collection" samples.one_document) samples.service0).
  - vm_compute. reflexivity.
  - discriminate.
Defined.

(** X11. The service's [get_collection_info] never lets an
    [UnexpectedResponse] out, and the dict it returns always carries the
    service's collection name; the "not_found" dict has both counts 0. *)
Theorem service_info_outcome {World : Type} (E : Env World)
    (self : vector_store.VectorStoreService) (w : World) :
  match fst (vector_store.get_collection_info E self w) with
  | Ok d =>
      vector_store.name d = vector_store.collection_name self
      /\ (vector_store.status d = "not_found" ->
          vector_store.points_count d = 0
          /\ vector_store.indexed_vectors_count d = 0)
  | Raise e => is_UnexpectedResponse e = false
  end.
Proof.
  unfold vector_store.get_collection_info, try_except, bind, ret.
  destruct (client_get_collection E (vector_store.collection_name self) w)
    as [[info|e] w1]; cbn.
  - split; [reflexivity|]. intros H.
    exfalso. exact (status_value_not_found _ H).
  - destruct (is_UnexpectedResponse e) eqn:He; cbn; [|exact He].
    split; [reflexivity|]. intros _. split; reflexivity.
Qed.

(** X12. [health_check] never raises: it returns [True] when the listing
    of collections returns and [False] when that call raises. *)
Theorem health_check_never_raises {World : Type} (E : Env World)
    (self : vector_store.VectorStoreService) (w : World) :
  vector_store.health_check E self w
  = (Ok (match fst (client_get_collections E w) with
         | Ok _ => true
         | Raise _ => false
         end), snd (client_get_collections E w)).
Proof.
  unfold vector_store.health_check, try_except, bind, ret.
  destruct (client_get_collections E w) as [[[]|e] w1]; reflexivity.
Qed.

(* ===================================================================== *)
(** * Further properties of the chain                                    *)
(* ===================================================================== *)

Lemma format_template_rag_prompt (context question : string) :
  rag_chain.format_template rag_chain.RAG_PROMPT_TEMPLATE
    [("context", context); ("question", question)]
  = Ok (rag_prompt context question).
Proof. vm_compute. reflexivity. Qed.

(** X13. The pipeline retrieves first.  When retrieval raises, the
    exception is the outcome and the chat model is not called.  When it
    returns documents, filling the template cannot fail, and the chat
    model is called once, on the template with the documents' texts,
    joined by blank lines, as context and the input as question; its
    outcome is the pipeline's. *)
Theorem rag_pipeline_prompt {World float : Type} (C : ChainEnv World float)
    (r : Retriever) (input : ChainInput) (w : World) :
  rag_chain.rag_pipeline C r input w
  = match retriever_invoke C r input w with
    | (Ok docs, w1) =>
        llm_invoke C
          (rag_prompt
             (String.concat (rag_chain.newline +:+ rag_chain.newline)
                (map langchain.page_content docs))
             (input_str C input)) w1
    | (Raise e, w1) => (Raise e, w1)
    end.
Proof.
  unfold rag_chain.rag_pipeline. unfold bind at 1.
  destruct (retriever_invoke C r input w) as [[docs|e] w1]; [|reflexivity].
  unfold bind, lift. rewrite format_template_rag_prompt. reflexivity.
Qed.

Lemma substring_0_length (n : nat) (s : string) :
  String.length (substring 0 n s) = Nat.min n (String.length s).
Proof.
  revert s. induction n as [|n IH]; intros [|a s]; cbn; try reflexivity.
  rewrite IH. reflexivity.
Qed.

Lemma append_length (s t : string) :
  String.length (s +:+ t) = (String.length s + String.length t)%nat.
Proof.
  induction s as [|a s IH]; [reflexivity|].
  change (S (String.length (s +:+ t)) = S (String.length s + String.length t)).
  f_equal. exact IH.
Qed.

(** X14. A source entry's content never has more than 503 characters: it
    has the length of the page content up to 500, and exactly 503 beyond;
    in both cases it starts with the first 500 characters of the page
    content. *)
Theorem format_source_bounded (doc : Document) :
  let text := langchain.page_content doc in
  let content := rag_chain.content (rag_chain.format_source doc) in
  String.length content
  = (if (String.length text <=? 500)%nat then String.length text else 503%nat)
  /\ (String.length content <= 503)%nat
  /\ substring 0 500 content = substring 0 500 text.
Proof.
  cbv zeta. unfold rag_chain.format_source. cbn [rag_chain.content].
  destruct (Z.ltb_spec 500 (Z.of_nat (String.length (langchain.page_content doc))))
    as [Hlong|Hshort]; cbv iota.
  - assert (Hn : (500 < String.length (langchain.page_content doc))%nat) by lia.
    destruct (Nat.leb_spec (String.length (langchain.page_content doc)) 500); [lia|].
    rewrite append_length, substring_0_length.
    rewrite Nat.min_l by lia. cbn [String.length].
    split; [lia|]. split; [lia|].
    generalize (substring_0_length 500 (langchain.page_content doc)).
    rewrite Nat.min_l by lia.
    generalize (substring 0 500 (langchain.page_content doc)) as p.
    intros p Hp. clear -Hp.
    assert (G : forall n q t, String.length q = n -> substring 0 n (q +:+ t) = q).
    { induction n as [|n IH]; intros [|a q] t Hq; cbn in *; try discriminate.
      - destruct t; reflexivity.
      - change (String a (substring 0 n (q +:+ t)) = String a q).
        f_equal. apply IH. lia. }
    apply G. exact Hp.
  - destruct (Nat.leb_spec (String.length (langchain.page_content doc)) 500); [|lia].
    split; [reflexivity|]. split; [lia | reflexivity].
Qed.

(** X15. On an instance without a [chain] attribute, such as the one that
    [RAGChain()] makes, every query method raises [AttributeError] and
    touches neither the instance nor the world; the evaluated query does
    so before any evaluation. *)
Theorem query_methods_need_chain {World float : Type}
    (E : Env World) (C : ChainEnv World float)
    (self : rag_chain.RAGChain) (question : string) (b : bool) (w : World) :
  rag_chain.chain self = None ->
  let missing {A} : result A :=
    Raise (AttributeError "'RAGChain' object has no attribute 'chain'") in
  rag_chain.query question (self, w) = (missing, (self, w))
  /\ rag_chain.aquery question (self, w) = (missing, (self, w))
  /\ rag_chain.query_with_sources C question (self, w) = (missing, (self, w))
  /\ rag_chain.aquery_with_sources C question (self, w) = (missing, (self, w))
  /\ rag_chain.aquery_with_evaluation E C question b (self, w) = (missing, (self, w)).
Proof.
  intros Hchain. cbv zeta.
  unfold rag_chain.query, rag_chain.aquery, rag_chain.query_with_sources,
    rag_chain.aquery_with_evaluation, rag_chain.aquery_with_sources,
    await_coroutine, try_except, rag_chain.getattr, bind.
  cbn [fst snd]. rewrite Hchain. repeat split; reflexivity.
Qed.

Lemma query_methods_need_chain_witness :
  let missing {A} : result A :=
    Raise (AttributeError "'RAGChain' object has no attribute 'chain'") in
  rag_chain.query "Who?" (rag_chain.RAGChain_new, memory.empty)
  = (missing, (rag_chain.RAGChain_new, memory.empty))
  /\ rag_chain.aquery "Who?" (rag_chain.RAGChain_new, memory.empty)
     = (missing, (rag_chain.RAGChain_new, memory.empty))
  /\ rag_chain.query_with_sources samples.C0 "Who?" (rag_chain.RAGChain_new, memory.empty)
     = (missing, (rag_chain.RAGChain_new, memory.empty))
  /\ rag_chain.aquery_with_sources samples.C0 "Who?" (rag_chain.RAGChain_new, memory.empty)
     = (missing, (rag_chain.RAGChain_new, memory.empty))
  /\ rag_chain.aquery_with_evaluation samples.E0 samples.C0 "Who?" true
       (rag_chain.RAGChain_new, memory.empty)
     = (missing, (rag_chain.RAGChain_new, memory.empty)).
Proof.
  apply (query_methods_need_chain samples.E0 samples.C0 rag_chain.RAGChain_new
           "Who?" true memory.empty).
  reflexivity.
Defined.

(* ===================================================================== *)
(** * Further properties of the evaluator                                *)
(* ===================================================================== *)

(** X17. [aevaluate] never raises.  After its first reading of the clock
    it runs the evaluation; when that returns scores, they are the
    result, and they are complete, with the time and no error; when it
    raises, the result is the fallback, three nulls and the message of
    that very exception.  The world is the one the evaluation left. *)
Theorem aevaluate_never_raises {World float : Type} (C : ChainEnv World float)
    (self : ragas_evaluator.RAGASEvaluator) (question answer : string)
    (contexts : list string) (w : World) :
  match ragas_evaluator.aevaluate_try C self (fst (time_time C w))
          question answer contexts (snd (time_time C w)) with
  | (Ok s, w') =>
      ragas_evaluator.aevaluate C self question answer contexts w = (Ok s, w')
      /\ ragas_evaluator.error s = None
      /\ ragas_evaluator.faithfulness s <> None
      /\ ragas_evaluator.answer_relevancy s <> None
      /\ ragas_evaluator.evaluation_time_ms s <> None
  | (Raise e, w') =>
      ragas_evaluator.aevaluate C self question answer contexts w
      = (Ok {| ragas_evaluator.faithfulness := None;
               ragas_evaluator.answer_relevancy := None;
               ragas_evaluator.evaluation_time_ms := None;
               ragas_evaluator.error := Some (exn_str e) |}, w')
  end.
Proof.
  assert (Hrun : ragas_evaluator.aevaluate C self question answer contexts w
                 = match ragas_evaluator.aevaluate_try C self (fst (time_time C w))
                           question answer contexts (snd (time_time C w)) with
                   | (Ok s, w') => (Ok s, w')
                   | (Raise e, w') =>
                       (Ok (ragas_evaluator._handle_evaluation_error self e), w')
                   end).
  { unfold ragas_evaluator.aevaluate, bind, ragas_evaluator.now, try_except, ret.
    destruct (time_time C w) as [t0 w1]. cbn [fst snd].
    destruct (ragas_evaluator.aevaluate_try C self t0 question answer contexts w1)
      as [[s|e] w']; reflexivity. }
  rewrite Hrun. clear Hrun.
  destruct (time_time C w) as [t0 w1]. cbn [fst snd].
  destruct (ragas_evaluator.aevaluate_try C self t0 question answer contexts w1)
    as [[s|e] w'] eqn:Htry; [|reflexivity].
  split; [reflexivity|].
  revert Htry.
  unfold ragas_evaluator.aevaluate_try, bind,
    ragas_evaluator._prepare_dataset, bind, ret, await_coroutine.
  destruct (Dataset_from_dict C question answer contexts w1) as [[[]|e] w2];
    [|discriminate].
  cbn [ragas_evaluator._evaluate_with_timeout ragas_evaluator.question
       ragas_evaluator.answer ragas_evaluator.contexts].
  destruct (ragas_evaluate C question answer contexts w2) as [[row|e] w3];
    [|discriminate].
  unfold ragas_evaluator.now. destruct (time_time C w3) as [t1 w4].
  unfold lift.
  destruct (ragas_evaluator.score C row "faithfulness") as [f|e]; [|discriminate].
  destruct (ragas_evaluator.score C row "answer_relevancy") as [r|e]; [|discriminate].
  intros H. injection H as <- _. cbn. repeat split; discriminate.
Qed.

(** X18. A row without a faithfulness score is not reported as a score:
    when the table is accepted and RAGAS returns a row that lacks the key
    "faithfulness", [aevaluate] returns the fallback with the message of
    the [TypeError] that [float(None)] raises. *)
Theorem aevaluate_missing_score {World float : Type} (C : ChainEnv World float)
    (self : ragas_evaluator.RAGASEvaluator) (question answer : string)
    (contexts : list string) (w w2 w3 : World)
    (row : list (string * Cell float)) :
  Dataset_from_dict C question answer contexts (snd (time_time C w)) = (Ok tt, w2) ->
  ragas_evaluate C question answer contexts w2 = (Ok row, w3) ->
  dict_get row "faithfulness" = None ->
  ragas_evaluator.aevaluate C self question answer contexts w
  = (Ok (null_scores
           (TypeError
              "float() argument must be a string or a real number, not 'NoneType'")),
     snd (time_time C w3)).
Proof.
  intros Hdata Heval Hmiss.
  unfold ragas_evaluator.aevaluate, bind, ragas_evaluator.now.
  destruct (time_time C w) as [t0 w1]. cbn [snd] in Hdata.
  unfold try_except, ragas_evaluator.aevaluate_try, bind,
    ragas_evaluator._prepare_dataset, bind, ret, await_coroutine.
  rewrite Hdata.
  cbn [ragas_evaluator._evaluate_with_timeout ragas_evaluator.question
       ragas_evaluator.answer ragas_evaluator.contexts].
  rewrite Heval.
  unfold ragas_evaluator.now. destruct (time_time C w3) as [t1 w4].
  unfold lift, ragas_evaluator.score. rewrite Hmiss. reflexivity.
Qed.

Lemma aevaluate_missing_score_witness :
  ragas_evaluator.aevaluate samples.C_partial
    samples.evaluator0 "Where is Paris?" "Paris" ["Paris is in France."] memory.empty
  = (Ok (null_scores
           (TypeError
              "float() argument must be a string or a real number, not 'NoneType'")),
     snd (time_time samples.C_partial
            (memory.log "evaluate" (memory.tick memory.empty)))).
Proof.
  apply (aevaluate_missing_score samples.C_partial
           samples.evaluator0 "Where is Paris?" "Paris" ["Paris is in France."]
           memory.empty (memory.tick memory.empty)
           (memory.log "evaluate" (memory.tick memory.empty))
           [("answer_relevancy", CFloat 2%Z)]).
  - reflexivity.
  - reflexivity.
  - reflexivity.
Defined.

(** X19. When the table is accepted and the row holds both scores as
    numbers, [aevaluate] returns exactly those two scores, the elapsed
    time between its two readings of the clock, in milliseconds and
    rounded to two places, and no error. *)
Theorem aevaluate_scores {World float : Type} (C : ChainEnv World float)
    (self : ragas_evaluator.RAGASEvaluator) (question answer : string)
    (contexts : list string) (w w2 w3 : World)
    (row : list (string * Cell float)) (f r : float) :
  Dataset_from_dict C question answer contexts (snd (time_time C w)) = (Ok tt, w2) ->
  ragas_evaluate C question answer contexts w2 = (Ok row, w3) ->
  dict_get row "faithfulness" = Some (CFloat f) ->
  dict_get row "answer_relevancy" = Some (CFloat r) ->
  ragas_evaluator.aevaluate C self question answer contexts w
  = (Ok {| ragas_evaluator.faithfulness := Some f;
           ragas_evaluator.answer_relevancy := Some r;
           ragas_evaluator.evaluation_time_ms :=
             Some (round2 C (elapsed_ms C (fst (time_time C w3))
                                          (fst (time_time C w))));
           ragas_evaluator.error := None |},
     snd (time_time C w3)).
Proof.
  intros Hdata Heval Hf Hr.
  unfold ragas_evaluator.aevaluate, bind, ragas_evaluator.now.
  destruct (time_time C w) as [t0 w1]. cbn [fst snd] in *.
  unfold try_except, ragas_evaluator.aevaluate_try, bind,
    ragas_evaluator._prepare_dataset, bind, ret, await_coroutine.
  rewrite Hdata.
  cbn [ragas_evaluator._evaluate_with_timeout ragas_evaluator.question
       ragas_evaluator.answer ragas_evaluator.contexts].
  rewrite Heval.
  unfold ragas_evaluator.now. destruct (time_time C w3) as [t1 w4].
  unfold lift, ragas_evaluator.score. rewrite Hf, Hr. reflexivity.
Qed.

Lemma aevaluate_scores_witness :
  ragas_evaluator.aevaluate samples.C_scored samples.evaluator0
    "Where is Paris?" "Paris" ["Paris is in France."] memory.empty
  = (Ok {| ragas_evaluator.faithfulness := Some 1%Z;
           ragas_evaluator.answer_relevancy := Some 2%Z;
           ragas_evaluator.evaluation_time_ms :=
             Some (round2 samples.C_scored
                     (elapsed_ms samples.C_scored
                        (fst (time_time samples.C_scored
                                (memory.log "evaluate" (memory.tick memory.empty))))
                        (fst (time_time samples.C_scored memory.empty))));
           ragas_evaluator.error := None |},
     snd (time_time samples.C_scored
            (memory.log "evaluate" (memory.tick memory.empty)))).
Proof.
  apply (aevaluate_scores samples.C_scored samples.evaluator0
           "Where is Paris?" "Paris" ["Paris is in France."]
           memory.empty (memory.tick memory.empty)
           (memory.log "evaluate" (memory.tick memory.empty))
           [("faithfulness", CFloat 1%Z); ("answer_relevancy", CFloat 2%Z)]).
  - reflexivity.
  - reflexivity.
  - reflexivity.
  - reflexivity.
Defined.

(** X20. The evaluated query fails only if producing the answer with its
    sources fails, and then with that exception and without obtaining an
    evaluator.  Once answer and sources are there, it returns them with
    some evaluation part, whatever the evaluation does. *)
Theorem evaluated_query_outcome {World float : Type}
    (E : Env World) (C : ChainEnv World float)
    (question : string) (include_sources : bool) (ow : rag_chain.Obj) :
  match rag_chain.aquery_with_sources C question ow with
  | (Raise e, ow1) =>
      rag_chain.aquery_with_evaluation E C question include_sources ow
      = (Raise e, ow1)
  | (Ok res, ow1) =>
      exists scores ow2,
        rag_chain.aquery_with_evaluation E C question include_sources ow
        = (Ok {| rag_chain.ev_answer := rag_chain.answer res;
                 rag_chain.ev_sources := rag_chain.sources res;
                 rag_chain.evaluation := scores |}, ow2)
  end.
Proof.
  destruct (rag_chain.aquery_with_sources C question ow) as [[res|e] ow1] eqn:Hsrc.
  - unfold rag_chain.aquery_with_evaluation, try_except at 1, await_coroutine.
    unfold bind at 1. rewrite Hsrc.
    unfold bind at 1. unfold try_except.
    destruct (rag_chain.evaluation_step E C question (rag_chain.answer res)
                (map rag_chain.content (rag_chain.sources res)) ow1)
      as [[s|e] ow2]; cbn; eauto.
  - unfold rag_chain.aquery_with_evaluation, try_except at 1, await_coroutine.
    unfold bind at 1. rewrite Hsrc. reflexivity.
Qed.

(** X21. The [evaluator] property builds the evaluator at most once: after
    an access that returned, the instance holds that evaluator, and the
    next access returns it without constructing anything and without
    touching the world. *)
Theorem evaluator_is_cached {World float : Type}
    (E : Env World) (C : ChainEnv World float)
    (ow ow1 : rag_chain.Obj) (ev : ragas_evaluator.RAGASEvaluator) :
  rag_chain.evaluator E C ow = (Ok ev, ow1) ->
  rag_chain._evaluator (fst ow1) = Some (Some ev)
  /\ rag_chain.evaluator E C ow1 = (Ok ev, ow1).
Proof.
  destruct ow as [self w].
  unfold rag_chain.evaluator at 1.
  unfold bind at 1. unfold rag_chain.getattr at 1. cbn [fst snd].
  destruct (rag_chain._evaluator self) as [[held|]|] eqn:Hheld; [| |discriminate].
  - unfold ret. intros H. injection H as <- <-. cbn [fst].
    split; [exact Hheld|].
    unfold rag_chain.evaluator, bind, rag_chain.getattr. cbn [fst snd].
    rewrite Hheld. reflexivity.
  - unfold bind, rag_chain.world, rag_chain.setattr, ret. cbn [fst snd].
    destruct (ragas_evaluator.__init__ E C w) as [[created|e] w1]; [|discriminate].
    intros H. injection H as <- <-. cbn [fst]. split; [reflexivity|].
    unfold rag_chain.evaluator, bind, rag_chain.getattr. cbn [fst snd].
    reflexivity.
Qed.

Lemma evaluator_is_cached_witness :
  rag_chain._evaluator
    (fst (rag_chain.set__evaluator (Some samples.evaluator0) samples.chain0,
          memory.empty))
  = Some (Some samples.evaluator0)
  /\ rag_chain.evaluator samples.E0 samples.C0
       (rag_chain.set__evaluator (Some samples.evaluator0) samples.chain0,
        memory.empty)
     = (Ok samples.evaluator0,
        (rag_chain.set__evaluator (Some samples.evaluator0) samples.chain0,
         memory.empty)).
Proof.
  apply (evaluator_is_cached samples.E0 samples.C0
           (samples.chain0, memory.empty)).
  reflexivity.
Defined.


